(** * voiceapp311: the bundled ArcGIS client, utilities and tile-export jobs

    A shallow embedding of the parts of the bundled [arcgis] package that the
    written specification talks about:

    - [arcgis/_impl/common/_utils.py]: [rot13] and [chunks];
    - [arcgis/mapping/_types.py]: [MapImageLayer.estimate_export_tiles_size]
      and [MapImageLayer.export_tiles], with their request builders and the
      sleep-and-poll loop that waits for the server-side job.

    Python values are modelled by the inductive type [pyval]; Python
    exceptions by [exn]; the HTTP connection, [time.sleep] and [print] by an
    explicit world that records every effect in a trace. *)

From Stdlib Require Import ZArith Ascii String List Lia Bool.
From stdpp Require Import base option list strings gmap.

Open Scope Z_scope.

(** ** Utilities: [arcgis/_impl/common/_utils.py] *)

Module Utils.

(** A Python [str] is a sequence of Unicode code points; a one-character
    string is identified with its code point. *)
Abbreviation pychar := Z.
Abbreviation pystr := (list Z).

Definition max_code_point : Z := 1114111.

Definition valid_char (c : pychar) : Prop := 0 <= c <= max_code_point.
Definition valid_str (s : pystr) : Prop := Forall valid_char s.

(** [ord(v)] for a character of a string, and for a character literal of the
    source text. *)
Definition ord (v : pychar) : Z := v.
Definition ord_lit (a : ascii) : Z := Z.of_N (N_of_ascii a).

(** [chr(c)]; [None] stands for the [ValueError] that Python raises outside
    [range(0x110000)]. *)
Definition chr (c : Z) : option pychar :=
  if (0 <=? c) && (c <=? max_code_point) then Some c else None.

(** The body of the [for] loop of [rot13], up to the call of [chr]. *)
Definition rot13_shift (c : Z) : Z :=
  if (ord_lit "a" <=? c) && (c <=? ord_lit "z") then
    if ord_lit "m" <? c then c - 13 else c + 13
  else if (ord_lit "A" <=? c) && (c <=? ord_lit "Z") then
    if ord_lit "M" <? c then c - 13 else c + 13
  else c.

(** [for v in s: ...; result += chr(c)] *)
Fixpoint rot13_loop (s : pystr) (result : pystr) : option pystr :=
  match s with
  | [] => Some result
  | v :: s' =>
      match chr (rot13_shift (ord v)) with
      | Some ch => rot13_loop s' (result ++ [ch])
      | None => None
      end
  end.

Definition rot13 (s : pystr) : option pystr := rot13_loop s [].

Definition is_lower (c : Z) : Prop := ord_lit "a" <= c <= ord_lit "z".
Definition is_upper (c : Z) : Prop := ord_lit "A" <= c <= ord_lit "Z".

(** [len(range(start, stop, step))] for a non-zero step, as CPython
    computes it. *)
Definition range_len (start stop step : Z) : Z :=
  if 0 <? step then
    if start <? stop then (stop - start - 1) / step + 1 else 0
  else
    if stop <? start then (start - stop - 1) / (- step) + 1 else 0.

(** [range(start, stop, step)]; [None] stands for the [ValueError] raised
    for a zero step. *)
Definition py_range (start stop step : Z) : option (list Z) :=
  if step =? 0 then None
  else Some (map (fun k : nat => start + Z.of_nat k * step)
                 (seq 0 (Z.to_nat (range_len start stop step)))).

(** The slice [l[i:j]]: negative bounds count from the end, and both bounds
    are clamped to the list. *)
Definition slice_bound (len x : Z) : Z :=
  if x <? 0 then Z.max 0 (x + len) else Z.min x len.

Definition slice {A : Type} (l : list A) (i j : Z) : list A :=
  let len := Z.of_nat (length l) in
  let lo := slice_bound len i in
  let hi := slice_bound len j in
  take (Z.to_nat (hi - lo)) (drop (Z.to_nat lo) l).

(** [chunks(l, n)]: the list of the chunks the generator yields, in order. *)
Definition chunks {A : Type} (l : list A) (n : Z) : option (list (list A)) :=
  match py_range 0 (Z.of_nat (length l)) n with
  | Some idx => Some (map (fun i => slice l i (i + n)) idx)
  | None => None
  end.

End Utils.


(** ** Python values, exceptions and the effects of the client *)

Module Py.

(** The values that flow through the tile-export functions: decoded JSON
    (numbers restricted to integers) and plain attribute-carrying objects.
    A [VDict] keeps its items in insertion order, as [dict.items()] yields
    them; a lookup takes the first binding of a key. *)
#[warnings="-register-all"]
Inductive pyval : Type :=
| VNone
| VBool (b : bool)
| VInt (z : Z)
| VStr (s : string)
| VList (l : list pyval)
| VDict (d : list (string * pyval))
| VObj (attrs : list (string * pyval)).

Abbreviation dict := (list (string * pyval)).

Inductive exn : Type :=
| Exception (msg : string)
| KeyError (key : string)
| AttributeError (name : string)
| TypeError.

Inductive result (A : Type) : Type :=
| Ok (a : A)
| Err (e : exn).
Arguments Ok {A} a.
Arguments Err {A} e.

Fixpoint dict_lookup (d : dict) (k : string) : option pyval :=
  match d with
  | [] => None
  | (k', v) :: d' => if String.eqb k' k then Some v else dict_lookup d' k
  end.

Definition dict_keys (d : dict) : list string := map fst d.

(** [v == s] for a string literal [s]. *)
Definition eq_str (v : pyval) (s : string) : bool :=
  match v with
  | VStr t => String.eqb t s
  | _ => false
  end.

(** [v == True] and [v == False]: a [bool] is an [int] in Python, so the
    integers 1 and 0 compare equal to them. *)
Definition eq_bool (v : pyval) (b : bool) : bool :=
  match v with
  | VBool c => Bool.eqb c b
  | VInt z => z =? (if b then 1 else 0)
  | _ => false
  end.

(** [v is None] *)
Definition is_none (v : pyval) : bool :=
  match v with
  | VNone => true
  | _ => false
  end.

(** [v in [s1, s2, ...]] for a list of string literals. *)
Definition in_strs (v : pyval) (l : list string) : bool :=
  existsb (eq_str v) l.

(** [v[k]] for a string key [k]. *)
Definition subscript (v : pyval) (k : string) : result pyval :=
  match v with
  | VDict d =>
      match dict_lookup d k with
      | Some x => Ok x
      | None => Err (KeyError k)
      end
  | _ => Err TypeError
  end.

(** [k in v] for a string [k]: a key of a dict, an element of a list, a
    substring of a string. *)
Definition contains (k : string) (v : pyval) : result bool :=
  match v with
  | VDict d => Ok (bool_decide (is_Some (dict_lookup d k)))
  | VList l => Ok (existsb (fun x => eq_str x k) l)
  | VStr s => Ok (bool_decide (is_Some (String.index 0 k s)))
  | _ => Err TypeError
  end.

(** [v.name] *)
Definition getattr (v : pyval) (name : string) : result pyval :=
  match v with
  | VObj attrs =>
      match dict_lookup attrs name with
      | Some x => Ok x
      | None => Err (AttributeError name)
      end
  | _ => Err (AttributeError name)
  end.

(** A call [v.name(...)] of a method that only dicts have: on an object
    the attribute, if there is one, holds data and cannot be called. *)
Definition dict_method {A : Type} (name : string) (v : pyval)
    (f : dict -> A) : result A :=
  match v with
  | VDict d => Ok (f d)
  | VObj attrs =>
      match dict_lookup attrs name with
      | Some _ => Err TypeError
      | None => Err (AttributeError name)
      end
  | _ => Err (AttributeError name)
  end.

(** [v.get(k)] *)
Definition get (v : pyval) (k : string) : result pyval :=
  dict_method "get" v (fun d => default VNone (dict_lookup d k)).

(** [v.items()] *)
Definition items (v : pyval) : result dict :=
  dict_method "items" v (fun d => d).

Fixpoint chars (s : string) : list pyval :=
  match s with
  | EmptyString => []
  | String a s' => VStr (String a EmptyString) :: chars s'
  end.

(** The elements a [for] loop over [v] visits. *)
Definition iterate (v : pyval) : result (list pyval) :=
  match v with
  | VList l => Ok l
  | VDict d => Ok (map VStr (dict_keys d))
  | VStr s => Ok (chars s)
  | _ => Err TypeError
  end.

(** The [path] argument handed to the connection: a value, or the string
    ["%s/jobs/%s" % (url, job_id)], kept unrendered. *)
Inductive pypath : Type :=
| PathVal (v : pyval)
| PathJob (url : string) (job_id : pyval).

(** The observable effects. [EPrint v] stands for [print(str(v))]. *)
Inductive event : Type :=
| EGet (path : pypath) (params : gmap string pyval) (kw : dict)
| EPost (path : pypath) (params : gmap string pyval) (kw : dict)
| ESleep (seconds : Z)
| EPrint (v : pyval).

(** The world: how many HTTP requests the connection has answered, and
    everything that has happened, oldest first. *)
Record world : Type := World { answered : nat; trace : list event }.

Definition fresh : world := World 0 [].

(** How a run ends: a returned value, a raised exception, or [Running]
    when the polling budget given to the model has been used up and the
    program is still inside its loop. *)
Inductive outcome (A : Type) : Type :=
| Returned (a : A)
| Raised (e : exn)
| Running.
Arguments Returned {A} a.
Arguments Raised {A} e.
Arguments Running {A}.

Definition M (A : Type) : Type := world -> outcome A * world.

Definition ret {A : Type} (a : A) : M A := fun w => (Returned a, w).

Definition raise {A : Type} (e : exn) : M A := fun w => (Raised e, w).

Definition running {A : Type} : M A := fun w => (Running, w).

Definition bind {A B : Type} (m : M A) (k : A -> M B) : M B :=
  fun w =>
    match m w with
    | (Returned a, w') => k a w'
    | (Raised e, w') => (Raised e, w')
    | (Running, w') => (Running, w')
    end.

Definition lift {A : Type} (r : result A) : M A :=
  match r with
  | Ok a => ret a
  | Err e => raise e
  end.

Definition emit (e : event) : M unit :=
  fun w => (Returned tt, World (answered w) (trace w ++ [e])).

End Py.

(** ** Tile export: [arcgis/mapping/_types.py], class [MapImageLayer] *)

Module Mapping.
Import Py.

Declare Scope py_scope.
Delimit Scope py_scope with py.
Notation "x <- c ;; k" := (bind c (fun x => k))
  (at level 100, c at next level, right associativity) : py_scope.
Notation "c ;;; k" := (bind c (fun _ => k))
  (at level 100, right associativity) : py_scope.
Open Scope py_scope.

(** The attributes of [self] that the two methods read. [properties] is
    the layer's property mapping, taken as already loaded. *)
Record layer : Type := Layer {
  _url : string;
  _token : pyval;
  properties : pyval
}.

(** The statuses on which the wait gives up. *)
Definition failure_statuses : list string :=
  ["esriJobFailed"; "esriJobCancelling"; "esriJobCancelled"; "esriJobTimedOut"]%string.

(** [if len(kwargs) > 0: for k, v in kwargs.items(): params[k] = v] *)
Definition update_kwargs (params : gmap string pyval) (kwargs : dict)
    : gmap string pyval :=
  if (0 <? length kwargs)%nat
  then foldl (fun p kv => <[kv.1 := kv.2]> p) params kwargs
  else params.

(** The request builder of [estimate_export_tiles_size]
    (arguments after their defaults have been applied). *)
Definition estimate_params (export_by levels tile_package export_extent
    area_of_interest : pyval) (kwargs : dict) : gmap string pyval :=
  let params : gmap string pyval :=
    <["exportExtent"%string := export_extent]>
    (<["tilePackage"%string := tile_package]>
    (<["exportBy"%string := export_by]>
    (<["levels"%string := levels]>
    (<["f"%string := VStr "json"]> ∅)))) in
  let params := <["levels"%string := levels]> params in
  let params := update_kwargs params kwargs in
  if negb (is_none area_of_interest)
  then <["areaOfInterest"%string := area_of_interest]> params
  else params.

(** The request builder of [export_tiles]. *)
Definition export_params (levels export_by tile_package export_extent
    optimize_for_size compression area_of_interest : pyval) (kwargs : dict)
    : gmap string pyval :=
  let params : gmap string pyval :=
    <["levels"%string := levels]>
    (<["exportBy"%string := export_by]>
    (<["compressionQuality"%string := compression]>
    (<["optimizeTilesForSize"%string := optimize_for_size]>
    (<["exportExtent"%string := export_extent]>
    (<["tilePackage"%string := tile_package]>
    (<["f"%string := VStr "json"]> ∅)))))) in
  let params := update_kwargs params kwargs in
  if negb (is_none area_of_interest)
  then <["areaOfInterest"%string := area_of_interest]> params
  else params.

(** The keyword argument [token=self._token], and the parameters
    [{"f": "json"}] of a status or result request. *)
Definition token_kw (self : layer) : dict := [("token"%string, _token self)].

Definition status_params : gmap string pyval := {[ "f"%string := VStr "json" ]}.

Section Connection.

(** The connection object is an external collaborator: [server n] is the
    decoded body it hands back for the [n]-th request it is asked to make.
    [tempdir] is what [tempfile.gettempdir()] answers. *)
Variable server : nat -> pyval.
Variable tempdir : string.

Definition request (e : event) : M pyval :=
  fun w => (Returned (server (answered w)),
            World (S (answered w)) (trace w ++ [e])).

(** [self._con.get(path, params, **kw)] and [self._con.post(...)] *)
Definition con_get (path : pypath) (params : gmap string pyval) (kw : dict)
    : M pyval :=
  request (EGet path params kw).

Definition con_post (path : pypath) (params : gmap string pyval) (kw : dict)
    : M pyval :=
  request (EPost path params kw).

(** [time.sleep(seconds)] and [print(str(v))] *)
Definition sleep (seconds : Z) : M unit := emit (ESleep seconds).
Definition print_str (v : pyval) : M unit := emit (EPrint v).

(** The [while] loop shared, line for line, by the two methods
    (_types.py 2080-2090 and 2225-2235). [fuel] bounds the number of
    iterations the model follows; the loop itself has no bound. The loop
    hands back the last [job_response]. *)
Fixpoint poll_loop (fuel : nat) (self : layer) (path : pypath)
    (params : gmap string pyval) (job_response status : pyval) : M pyval :=
  if negb (eq_str status "esriJobSucceeded") then
    match fuel with
    | O => running
    | S fuel' =>
        sleep 5 ;;;
        job_response <- con_post path params (token_kw self) ;;
        status <- lift (get job_response "status") ;;
        if in_strs status failure_statuses then
          messages <- lift (subscript job_response "messages") ;;
          print_str messages ;;;
          match status with
          | VStr s => raise (Exception ("Job Failed with status " +:+ s))
          | _ => raise TypeError
          end
        else poll_loop fuel' self path params job_response status
    end
  else ret job_response.

(** The synchronous branch up to the end of the wait (_types.py 2070-2092
    and 2215-2237): submit the job, fetch its status once, then loop. *)
Definition submit_and_wait (fuel : nat) (self : layer) (url : string)
    (params : gmap string pyval) : M pyval :=
  exportJob <- con_get (PathVal (VStr url)) params (token_kw self) ;;
  job_id <- lift (subscript exportJob "jobId") ;;
  job_id' <- lift (subscript exportJob "jobId") ;;
  let path := PathJob url job_id' in
  let params := status_params in
  job_response <- con_post path params (token_kw self) ;;
  has_status <- lift (contains "status" job_response) ;;
  if (has_status : bool) then
    status <- lift (get job_response "status") ;;
    poll_loop fuel self path params job_response status
  else raise (Exception "No job results.").

(** [MapImageLayer.estimate_export_tiles_size]. An optional argument is
    [None] when the caller leaves it out. *)
Definition estimate_export_tiles_size (fuel : nat) (self : layer)
    (export_by levels : pyval)
    (tile_package export_extent area_of_interest asynchronous : option pyval)
    (kwargs : dict) : M pyval :=
  let tile_package := default (VBool false) tile_package in
  let export_extent := default (VStr "DEFAULTEXTENT") export_extent in
  let area_of_interest := default VNone area_of_interest in
  let asynchronous := default (VBool true) asynchronous in
  allowed <- lift (subscript (properties self) "exportTilesAllowed") ;;
  if eq_bool allowed false then ret VNone
  else
    let url := _url self +:+ "/estimateExportTilesSize" in
    let params := estimate_params export_by levels tile_package export_extent
                    area_of_interest kwargs in
    if eq_bool asynchronous true then
      con_get (PathVal (VStr url)) params (token_kw self)
    else
      job_response <- submit_and_wait fuel self url params ;;
      lift (subscript job_response "results").

(** The inner [for f in gpRes['files']] loop of [export_tiles]: the call
    [files.append(..., token=...)] passes a keyword argument that
    [list.append] does not take, so the first file, once fetched, ends the
    loop with a [TypeError]. *)
Definition download_files (params : gmap string pyval) (fs : list pyval)
    (files : list pyval) : M pyval :=
  match fs with
  | [] => ret (VList files)
  | f :: _ =>
      name <- lift (subscript f "name") ;;
      dlURL <- lift (subscript f "url") ;;
      con_get (PathVal dlURL) params
        [("out_folder"%string, VStr tempdir); ("file_name"%string, name)] ;;;
      raise TypeError
  end.

(** What [export_tiles] does with [allResults] (_types.py 2241-2261): only
    the first item is ever looked at, since both branches return. *)
Definition fetch_results (self : layer) (tile_package : pyval)
    (allResults : pyval) : M pyval :=
  its <- lift (items allResults) ;;
  match its with
  | [] => ret VNone
  | (k, v) :: _ =>
      if String.eqb k "out_service_url" then
        value <- lift (getattr v "value") ;;
        let params := status_params in
        gpRes <- con_get (PathVal value) params (token_kw self) ;;
        if eq_bool tile_package true then
          fs <- lift (subscript gpRes "files") ;;
          fs <- lift (iterate fs) ;;
          download_files params fs []
        else lift (subscript gpRes "folders")
      else ret VNone
  end.

(** [MapImageLayer.export_tiles] *)
Definition export_tiles (fuel : nat) (self : layer) (levels : pyval)
    (export_by tile_package export_extent optimize_for_size compression
     area_of_interest asynchronous : option pyval)
    (kwargs : dict) : M pyval :=
  let export_by := default (VStr "LevelID") export_by in
  let tile_package := default (VBool false) tile_package in
  let export_extent := default (VStr "DEFAULT") export_extent in
  let optimize_for_size := default (VBool true) optimize_for_size in
  let compression := default (VInt 75) compression in
  let area_of_interest := default VNone area_of_interest in
  let asynchronous := default (VBool false) asynchronous in
  let params := export_params levels export_by tile_package export_extent
                  optimize_for_size compression area_of_interest kwargs in
  let url := _url self +:+ "/exportTiles" in
  if eq_bool asynchronous true then
    con_get (PathVal (VStr url)) params (token_kw self)
  else
    job_response <- submit_and_wait fuel self url params ;;
    allResults <- lift (subscript job_response "results") ;;
    fetch_results self tile_package allResults.

End Connection.

(** *** Vocabulary for the statements about the wait *)

(** What a fetched job response tells the loop. A response without a
    ["status"] entry reads as status [None]. *)
Definition succeeded (r : pyval) : bool :=
  match get r "status" with
  | Ok st => eq_str st "esriJobSucceeded"
  | Err _ => false
  end.

Definition failed (r : pyval) : bool :=
  match get r "status" with
  | Ok st => in_strs st failure_statuses
  | Err _ => false
  end.

(** The response is a job document whose status is neither the success
    status nor one of the failure statuses. *)
Definition waiting (r : pyval) : bool :=
  match get r "status" with
  | Ok st => negb (eq_str st "esriJobSucceeded")
             && negb (in_strs st failure_statuses)
  | Err _ => false
  end.

Definition has_status (r : pyval) : bool :=
  match contains "status" r with
  | Ok b => b
  | Err _ => false
  end.

(** The job was accepted: the answer to the submitting GET names a job. *)
Definition accepted (r : pyval) : bool :=
  match subscript r "jobId" with
  | Ok _ => true
  | Err _ => false
  end.

(** The service allows tile export, as the guard of
    [estimate_export_tiles_size] reads it. *)
Definition export_allowed (self : layer) : bool :=
  match subscript (properties self) "exportTilesAllowed" with
  | Ok flag => negb (eq_bool flag false)
  | Err _ => false
  end.

(** The path of the status resource of the job the server announced
    (of no interest when it announced none: the call has raised by then). *)
Definition job_path (url : string) (exportJob : pyval) : pypath :=
  match subscript exportJob "jobId" with
  | Ok j => PathJob url j
  | Err _ => PathJob url VNone
  end.

(** One turn of the loop as it shows in the trace, and the trace of a
    synchronous call that has gone through [n] turns. *)
Definition one_round (self : layer) (path : pypath) : list event :=
  [ESleep 5; EPost path status_params (token_kw self)].

Definition sync_trace (self : layer) (url : string)
    (params : gmap string pyval) (exportJob : pyval) (n : nat) : list event :=
  [EGet (PathVal (VStr url)) params (token_kw self);
   EPost (job_path url exportJob) status_params (token_kw self)]
  ++ concat (replicate n (one_round self (job_path url exportJob))).

(** The kind of an effect, for reading a trace at a glance. *)
Inductive kind : Type :=
| Get
| Post
| Sleep (seconds : Z)
| Print.

Definition kind_of (e : event) : kind :=
  match e with
  | EGet _ _ _ => Get
  | EPost _ _ _ => Post
  | ESleep seconds => Sleep seconds
  | EPrint _ => Print
  end.

Definition kinds (w : world) : list kind := map kind_of (trace w).

(** Whether a text occurs in the text of an error. *)
Definition mentions (detail text : string) : bool :=
  bool_decide (is_Some (String.index 0 text detail)).

(** The value the loop over [kwargs] leaves under a key: the last one
    given. *)
Definition kwargs_value (kwargs : dict) (k : string) : option pyval :=
  dict_lookup (rev kwargs) k.

(** The server accepts the job and answers the first [n] status requests
    with job documents that are not finished. Request 0 is the submitting
    GET, request 1 the status fetch before the loop, request [1 + i] the
    fetch of the [i]-th turn of the loop. *)
Definition waits_for (server : nat -> pyval) (n : nat) : Prop :=
  accepted (server 0%nat) = true /\
  has_status (server 1%nat) = true /\
  forall i, (i < n)%nat -> waiting (server (1 + i)%nat) = true.

(** A computation only ever adds to the trace and to the count of
    answered requests. *)
Definition grows {A : Type} (m : M A) : Prop :=
  forall w o w', m w = (o, w') ->
    (answered w <= answered w')%nat /\ exists evs, trace w' = trace w ++ evs.

(** The world after [n] more turns of the loop. *)
Definition after_rounds (self : layer) (path : pypath) (w : world) (n : nat)
    : world :=
  World (answered w + n)
        (trace w ++ concat (replicate n (one_round self path))).

End Mapping.

(** ** Sample layers and servers *)

Module Examples.
Import Py Mapping.
Open Scope string_scope.

Definition world_layer : layer :=
  Layer "https://maps.example.com/arcgis/rest/services/World/MapServer"
        (VStr "T0K3N")
        (VDict [("exportTilesAllowed", VBool true);
                ("maxExportTilesCount", VInt 100000)]).

Definition locked_layer : layer :=
  Layer "https://maps.example.com/arcgis/rest/services/World/MapServer"
        (VStr "T0K3N")
        (VDict [("exportTilesAllowed", VBool false)]).

Definition submitted : pyval :=
  VDict [("jobId", VStr "j42"); ("jobStatus", VStr "esriJobSubmitted")].

Definition job (status : string) (extra : dict) : pyval :=
  VDict (("jobId", VStr "j42") :: ("status", VStr status) :: extra).

Definition estimate : pyval :=
  VDict [("totalSize", VInt 48230); ("totalTilesToExport", VInt 17)].

Definition locked_messages : pyval :=
  VList [VDict [("type", VStr "esriJobMessageTypeError");
                ("description", VStr "Tile cache is locked")]].

Definition quota_messages : pyval :=
  VList [VDict [("type", VStr "esriJobMessageTypeError");
                ("description", VStr "Export quota exceeded")]].

(** The job is being cancelled when first looked at, and has finished all
    the same five seconds later. *)
Definition cancelling_then_done (n : nat) : pyval :=
  match n with
  | 0%nat => submitted
  | 1%nat => job "esriJobCancelling" [("messages", VList [])]
  | _ => job "esriJobSucceeded" [("results", estimate)]
  end.

(** The job has failed by the time its status is first fetched. *)
Definition failed_at_once (n : nat) : pyval :=
  match n with
  | 0%nat => submitted
  | _ => job "esriJobFailed" [("messages", locked_messages)]
  end.

(** The job runs, then fails with the given messages. *)
Definition fails_later (messages : pyval) (n : nat) : pyval :=
  match n with
  | 0%nat => submitted
  | 1%nat => job "esriJobExecuting" []
  | _ => job "esriJobFailed" [("messages", messages)]
  end.

(** The job runs, then succeeds. *)
Definition done_later (n : nat) : pyval :=
  match n with
  | 0%nat => submitted
  | 1%nat => job "esriJobExecuting" []
  | _ => job "esriJobSucceeded" [("results", estimate)]
  end.

(** The job runs; from the second status request on the server answers
    with a document that has no status entry. *)
Definition status_lost (n : nat) : pyval :=
  match n with
  | 0%nat => submitted
  | 1%nat => job "esriJobExecuting" []
  | _ => VDict [("jobId", VStr "j42")]
  end.

(** The very first status document has no status entry. *)
Definition no_status (n : nat) : pyval :=
  match n with
  | 0%nat => submitted
  | _ => VDict [("jobId", VStr "j42")]
  end.

(** The job never leaves the executing state. *)
Definition never_done (n : nat) : pyval :=
  match n with
  | 0%nat => submitted
  | _ => job "esriJobExecuting" []
  end.

Definition export_results : pyval :=
  VDict [("out_service_url",
          VObj [("value",
                 VStr "https://maps.example.com/jobs/j42/results/out_service_url")])].

Definition export_folders : pyval := VList [VStr "World_tiles/_alllayers"].

(** An export job that has succeeded when first looked at; the third
    request is the one for the resource its result points to. *)
Definition export_done (n : nat) : pyval :=
  match n with
  | 0%nat => submitted
  | 1%nat => job "esriJobSucceeded" [("results", export_results)]
  | _ => VDict [("folders", export_folders); ("files", VList [])]
  end.

(** The same job as plain JSON: the result entry is an object of the
    job document, not something with a [value] attribute. *)
Definition export_results_json : pyval :=
  VDict [("out_service_url",
          VDict [("paramUrl", VStr "results/out_service_url")])].

Definition export_done_json (n : nat) : pyval :=
  match n with
  | 0%nat => submitted
  | _ => job "esriJobSucceeded" [("results", export_results_json)]
  end.

End Examples.

(** ** More of [arcgis/_impl/common/_utils.py]: [_to_utf8] *)

Module Utf8.
Import Py.

(** [_to_utf8(data)], as it runs under Python 3, where every string is a
    [str] already: the [six.text_type] branch is never reached and the
    function only rebuilds containers. The dict comprehension keeps the
    items whose value is not [None]; keys are strings and stay as they
    are. *)
Fixpoint _to_utf8 (data : pyval) : pyval :=
  match data with
  | VDict d =>
      VDict (omap (fun kv : string * pyval =>
                     let (key, value) := kv in
                     if is_none value then None
                     else Some (key, _to_utf8 value)) d)
  | VList l => VList (map _to_utf8 l)
  | VStr s => VStr s
  | VInt z => VInt z
  | VBool b => VBool b
  | VNone => VNone
  | VObj attrs => VObj attrs
  end.

(** No dict that can be reached through dicts and lists holds [None] as
    a value. *)
Fixpoint none_free (v : pyval) : bool :=
  match v with
  | VDict d =>
      forallb (fun kv : string * pyval =>
                 let (_, value) := kv in
                 negb (is_none value) && none_free value) d
  | VList l => forallb none_free l
  | _ => true
  end.

End Utf8.

(** ** More of Python: truth values, [isinstance], [dict.pop] *)

Module PyMore.
Import Py.

(** The truth value of [v], as [if v:] tests it. A plain object is true. *)
Definition truthy (v : pyval) : bool :=
  match v with
  | VNone => false
  | VBool b => b
  | VInt z => negb (z =? 0)
  | VStr s => negb (String.eqb s "")
  | VList l => match l with [] => false | _ => true end
  | VDict d => match d with [] => false | _ => true end
  | VObj _ => true
  end.

(** [isinstance(v, int)]: a [bool] is an [int]. *)
Definition is_int (v : pyval) : bool :=
  match v with
  | VInt _ | VBool _ => true
  | _ => false
  end.

(** [del d[k]] on the items of a dict. *)
Definition dict_remove (k : string) (d : dict) : dict :=
  filter (fun kv => negb (String.eqb kv.1 k)) d.

(** [d.pop(k, dflt)]: the value found, or [dflt], and what is left of
    [d]. *)
Definition dict_pop (d : dict) (k : string) (dflt : pyval) : pyval * dict :=
  (default dflt (dict_lookup d k), dict_remove k d).

(** [if c: params[k] = v] *)
Definition set_if (c : bool) (k : string) (v : pyval)
    (params : gmap string pyval) : gmap string pyval :=
  if c then <[k := v]> params else params.

(** How Python binds a call: a keyword argument that carries the name of
    a parameter of the method goes to that parameter, so [**kwargs] holds
    none of the names in the [def] line. *)
Definition free_of (names : list string) (kwargs : dict) : Prop :=
  Forall (fun k => k ∉ names) (dict_keys kwargs).

End PyMore.

(** ** The shape of the trace of a synchronous call *)

Module Shapes.
Import Py Mapping.

(** What a synchronous call has done once its wait is over or cut short:
    the submitting GET, the first status POST, [n] turns of the loop and,
    if the job was seen to fail, the printing of its messages. *)
Definition wait_kinds (n : nat) (printed : bool) : list kind :=
  [Get; Post] ++ concat (replicate n [Sleep 5; Post])
  ++ (if printed then [Print] else []).

End Shapes.

(** ** [MapImageLayer.export_map] *)

Module MapExport.
Import Py PyMore Mapping.
Open Scope py_scope.

(** The arguments of a call; an optional one is [None] when the caller
    leaves it out. *)
Record args : Type := Args {
  bbox : pyval;
  bbox_sr : option pyval;
  size : option pyval;
  dpi : option pyval;
  image_sr : option pyval;
  image_format : option pyval;
  layer_defs : option pyval;
  layers : option pyval;
  transparent : option pyval;
  time_value : option pyval;
  time_options : option pyval;
  dynamic_layers : option pyval;
  gdb_version : option pyval;
  scale : option pyval;
  rotation : option pyval;
  transformation : option pyval;
  map_range_values : option pyval;
  layer_range_values : option pyval;
  layer_parameter : option pyval;
  f : option pyval;
  save_folder : option pyval;
  save_file : option pyval;
  kwargs : dict
}.

(** The names in the [def] line. *)
Definition parameters : list string :=
  ["self"; "bbox"; "bbox_sr"; "size"; "dpi"; "image_sr"; "image_format";
   "layer_defs"; "layers"; "transparent"; "time_value"; "time_options";
   "dynamic_layers"; "gdb_version"; "scale"; "rotation"; "transformation";
   "map_range_values"; "layer_range_values"; "layer_parameter"; "f";
   "save_folder"; "save_file"]%string.

(** The value of the output format parameter [f]. *)
Definition format_of (a : args) : pyval := default (VStr "json") (f a).

(** The parameter mapping, built in the order of the source. *)
Definition export_map_params (a : args) : gmap string pyval :=
  let bbox_sr := default VNone (bbox_sr a) in
  let size := default (VStr "600,550") (size a) in
  let dpi := default (VInt 200) (dpi a) in
  let image_sr := default VNone (image_sr a) in
  let image_format := default (VStr "png") (image_format a) in
  let layer_defs := default VNone (layer_defs a) in
  let layers := default VNone (layers a) in
  let transparent := default (VBool false) (transparent a) in
  let time_value := default VNone (time_value a) in
  let time_options := default VNone (time_options a) in
  let dynamic_layers := default VNone (dynamic_layers a) in
  let gdb_version := default VNone (gdb_version a) in
  let scale := default VNone (scale a) in
  let rotation := default VNone (rotation a) in
  let transformation := default VNone (transformation a) in
  let map_range_values := default VNone (map_range_values a) in
  let layer_range_values := default VNone (layer_range_values a) in
  let layer_parameter := default VNone (layer_parameter a) in
  let params : gmap string pyval := ∅ in
  let params := <["f"%string := format_of a]> params in
  let params := <["bbox"%string := bbox a]> params in
  let params := set_if (truthy bbox_sr) "bboxSR" bbox_sr params in
  let params := set_if (negb (is_none dpi)) "dpi" dpi params in
  let params := set_if (negb (is_none size)) "size" size params in
  let params :=
    set_if (negb (is_none image_sr) && is_int image_sr) "imageSR"
      (VDict [("wkid"%string, image_sr)]) params in
  let params :=
    set_if (negb (is_none image_format)) "format" image_format params in
  let params := set_if (negb (is_none layer_defs)) "layerDefs" layer_defs params in
  let params := set_if (negb (is_none layers)) "layers" layers params in
  let params :=
    set_if (negb (is_none transparent)) "transparent" transparent params in
  let params := set_if (negb (is_none time_value)) "time" time_value params in
  let params :=
    set_if (negb (is_none time_options)) "layerTimeOptions" time_options
      params in
  let params :=
    set_if (negb (is_none dynamic_layers)) "dynamicLayers" dynamic_layers
      params in
  let params := set_if (negb (is_none scale)) "mapScale" scale params in
  let params := set_if (negb (is_none rotation)) "rotation" rotation params in
  let params :=
    set_if (negb (is_none gdb_version)) "gdbVersion" gdb_version params in
  let params :=
    set_if (negb (is_none transformation)) "datumTransformations"
      transformation params in
  let params :=
    set_if (negb (is_none map_range_values)) "mapRangeValues"
      map_range_values params in
  let params :=
    set_if (negb (is_none layer_range_values)) "layerRangeValues"
      layer_range_values params in
  let params :=
    set_if (truthy layer_parameter) "layerParameterValues" layer_parameter
      params in
  update_kwargs params (kwargs a).

Section Connection.
Variable server : nat -> pyval.

(** [MapImageLayer.export_map] *)
Definition export_map (self : layer) (a : args) : M pyval :=
  let f := format_of a in
  let save_folder := default VNone (save_folder a) in
  let save_file := default VNone (save_file a) in
  let params := export_map_params a in
  let url := _url self +:+ "/export" in
  if eq_str f "json" then
    con_post server (PathVal (VStr url)) params (token_kw self)
  else if eq_str f "image" then
    if negb (is_none save_folder) && negb (is_none save_file) then
      con_post server (PathVal (VStr url)) params
        [("out_folder"%string, save_folder); ("try_json"%string, VBool false);
         ("file_name"%string, save_file); ("token"%string, _token self)]
    else
      con_post server (PathVal (VStr url)) params
        [("try_json"%string, VBool false); ("force_bytes"%string, VBool true);
         ("token"%string, _token self)]
  else if eq_str f "kmz" then
    con_post server (PathVal (VStr url)) params
      [("out_folder"%string, save_folder); ("file_name"%string, save_file);
       ("token"%string, _token self)]
  else
    print_str (VStr "Unsupported output format") ;;;
    ret VNone.

End Connection.

(** The output formats [export_map] knows. *)
Definition supported (v : pyval) : bool :=
  eq_str v "json" || eq_str v "image" || eq_str v "kmz".

End MapExport.

(** ** [MapImageLayer.find] *)

Module MapFind.
Import Py PyMore Mapping.

Record args : Type := Args {
  search_text : pyval;
  layers : pyval;
  contains : option pyval;
  search_fields : option pyval;
  sr : option pyval;
  layer_defs : option pyval;
  return_geometry : option pyval;
  max_offset : option pyval;
  precision : option pyval;
  dynamic_layers : option pyval;
  return_z : option pyval;
  return_m : option pyval;
  gdb_version : option pyval;
  return_unformatted : option pyval;
  return_field_name : option pyval;
  transformations : option pyval;
  map_range_values : option pyval;
  layer_range_values : option pyval;
  layer_parameters : option pyval;
  kwargs : dict
}.

(** The names in the [def] line. *)
Definition parameters : list string :=
  ["self"; "search_text"; "layers"; "contains"; "search_fields"; "sr";
   "layer_defs"; "return_geometry"; "max_offset"; "precision";
   "dynamic_layers"; "return_z"; "return_m"; "gdb_version";
   "return_unformatted"; "return_field_name"; "transformations";
   "map_range_values"; "layer_range_values"; "layer_parameters"]%string.

(** The parameter mapping before the keyword arguments are copied in. *)
Definition find_own_params (a : args) : gmap string pyval :=
  let contains := default (VBool true) (contains a) in
  let search_fields := default VNone (search_fields a) in
  let sr := default VNone (sr a) in
  let layer_defs := default VNone (layer_defs a) in
  let return_geometry := default (VBool true) (return_geometry a) in
  let max_offset := default VNone (max_offset a) in
  let precision := default VNone (precision a) in
  let dynamic_layers := default VNone (dynamic_layers a) in
  let return_z := default (VBool false) (return_z a) in
  let return_m := default (VBool false) (return_m a) in
  let gdb_version := default VNone (gdb_version a) in
  let return_unformatted := default (VBool false) (return_unformatted a) in
  let return_field_name := default (VBool false) (return_field_name a) in
  let transformations := default VNone (transformations a) in
  let map_range_values := default VNone (map_range_values a) in
  let layer_range_values := default VNone (layer_range_values a) in
  let layer_parameters := default VNone (layer_parameters a) in
  let params : gmap string pyval :=
    <["contains"%string := contains]>
    (<["searchText"%string := search_text a]>
    (<["f"%string := VStr "json"]> ∅)) in
  let params := set_if (truthy search_fields) "searchFields" search_fields params in
  let params := set_if (truthy sr) "sr" sr params in
  let params := set_if (truthy layer_defs) "layerDefs" layer_defs params in
  let params :=
    set_if (negb (is_none return_geometry)) "returnGeometry" return_geometry
      params in
  let params := set_if (truthy max_offset) "maxAllowableOffset" max_offset params in
  let params := set_if (truthy precision) "geometryPrecision" precision params in
  let params := set_if (truthy dynamic_layers) "dynamicLayers" dynamic_layers params in
  let params := set_if (negb (is_none return_z)) "returnZ" return_z params in
  let params := set_if (negb (is_none return_m)) "returnM" return_m params in
  let params := set_if (truthy gdb_version) "gdbVersion" gdb_version params in
  let params := set_if (truthy (layers a)) "layers" (layers a) params in
  let params :=
    set_if (negb (is_none return_unformatted)) "returnUnformattedValues"
      return_unformatted params in
  let params :=
    set_if (negb (is_none return_field_name)) "returnFieldName"
      return_field_name params in
  let params :=
    set_if (truthy transformations) "datumTransformations" transformations
      params in
  let params :=
    set_if (truthy map_range_values) "mapRangeValues" map_range_values
      params in
  let params :=
    set_if (truthy layer_range_values) "layerRangeValues" layer_range_values
      params in
  set_if (truthy layer_parameters) "layerParameterValues" layer_parameters
    params.

Definition find_params (a : args) : gmap string pyval :=
  update_kwargs (find_own_params a) (kwargs a).

Section Connection.
Variable server : nat -> pyval.

(** [MapImageLayer.find] *)
Definition find (self : layer) (a : args) : M pyval :=
  let url := _url self +:+ "/find" in
  let params := find_params a in
  con_post server (PathVal (VStr url)) params (token_kw self).

End Connection.

End MapFind.

(** ** [MapImageLayer.identify] *)

Module MapIdentify.
Import Py PyMore Mapping.
Open Scope py_scope.

Record args : Type := Args {
  geometry : pyval;
  map_extent : pyval;
  image_display : pyval;
  geometry_type : option pyval;
  sr : option pyval;
  layer_defs : option pyval;
  time_value : option pyval;
  time_options : option pyval;
  layers : option pyval;
  tolerance : option pyval;
  return_geometry : option pyval;
  max_offset : option pyval;
  precision : option pyval;
  dynamic_layers : option pyval;
  return_z : option pyval;
  return_m : option pyval;
  gdb_version : option pyval;
  return_unformatted : option pyval;
  return_field_name : option pyval;
  transformations : option pyval;
  map_range_values : option pyval;
  layer_range_values : option pyval;
  layer_parameters : option pyval;
  kwargs : dict
}.

(** The names in the [def] line. *)
Definition parameters : list string :=
  ["self"; "geometry"; "map_extent"; "image_display"; "geometry_type"; "sr";
   "layer_defs"; "time_value"; "time_options"; "layers"; "tolerance";
   "return_geometry"; "max_offset"; "precision"; "dynamic_layers";
   "return_z"; "return_m"; "gdb_version"; "return_unformatted";
   "return_field_name"; "transformations"; "map_range_values";
   "layer_range_values"; "layer_parameters"]%string.

(** [if geometry_type.find("esriGeometry") == -1:
       geometry_type = "esriGeometry" + geometry_type]
    Only a string has a [find] method among the values modelled. *)
Definition prefix_geometry_type (geometry_type : pyval) : result pyval :=
  match geometry_type with
  | VStr s =>
      match String.index 0 "esriGeometry" s with
      | Some _ => Ok (VStr s)
      | None => Ok (VStr ("esriGeometry" +:+ s))
      end
  | VObj attrs =>
      match dict_lookup attrs "find" with
      | Some _ => Err TypeError
      | None => Err (AttributeError "find")
      end
  | _ => Err (AttributeError "find")
  end.

(** [if v is None: v = kwargs.pop(key, dflt)] *)
Definition or_pop (v : pyval) (key : string) (dflt : pyval) (kwargs : dict)
    : pyval * dict :=
  if is_none v then dict_pop kwargs key dflt else (v, kwargs).

(** The parameter mapping, given the geometry type after its prefix has
    been seen to. *)
Definition identify_params (a : args) (geometry_type : pyval)
    : gmap string pyval :=
  let kwargs := kwargs a in
  let time_options := default VNone (time_options a) in
  let layers := default (VStr "all") (layers a) in
  let tolerance := default VNone (tolerance a) in
  let return_unformatted := default (VBool false) (return_unformatted a) in
  let return_field_name := default (VBool false) (return_field_name a) in
  let transformations := default VNone (transformations a) in
  let map_range_values := default VNone (map_range_values a) in
  let layer_range_values := default VNone (layer_range_values a) in
  let layer_parameters := default VNone (layer_parameters a) in
  let '(sr, kwargs) := or_pop (default VNone (sr a)) "sr" VNone kwargs in
  let '(layer_defs, kwargs) :=
    or_pop (default VNone (layer_defs a)) "layerDefs" VNone kwargs in
  let '(time_value, kwargs) :=
    or_pop (default VNone (time_value a)) "layerTimeOptions" VNone kwargs in
  let '(return_geometry, kwargs) :=
    or_pop (default (VBool true) (return_geometry a)) "returnGeometry"
      (VBool true) kwargs in
  let '(return_m, kwargs) :=
    or_pop (default (VBool false) (return_m a)) "returnM" (VBool false)
      kwargs in
  let '(return_z, kwargs) :=
    or_pop (default (VBool false) (return_z a)) "returnZ" (VBool false)
      kwargs in
  let '(max_offset, kwargs) :=
    or_pop (default VNone (max_offset a)) "maxAllowableOffset" VNone kwargs in
  let '(precision, kwargs) :=
    or_pop (default (VInt 4) (precision a)) "geometryPrecision" VNone
      kwargs in
  let '(dynamic_layers, kwargs) :=
    or_pop (default VNone (dynamic_layers a)) "dynamicLayers" VNone kwargs in
  let '(gdb_version, kwargs) :=
    or_pop (default VNone (gdb_version a)) "gdbVersion" VNone kwargs in
  let params : gmap string pyval :=
    <["imageDisplay"%string := image_display a]>
    (<["mapExtent"%string := map_extent a]>
    (<["tolerance"%string := tolerance]>
    (<["geometryType"%string := geometry_type]>
    (<["geometry"%string := geometry a]>
    (<["f"%string := VStr "json"]> ∅))))) in
  let params := set_if (truthy sr) "sr" sr params in
  let params := set_if (truthy layer_defs) "layerDefs" layer_defs params in
  let params := set_if (truthy time_value) "time" time_value params in
  let params := set_if (truthy time_options) "layerTimeOptions" time_options params in
  let params := set_if (truthy layers) "layers" layers params in
  let params := set_if (truthy tolerance) "tolerance" tolerance params in
  let params :=
    set_if (negb (is_none return_geometry)) "returnGeometry" return_geometry
      params in
  let params := set_if (truthy max_offset) "maxAllowableOffset" max_offset params in
  let params := set_if (truthy precision) "geometryPrecision" precision params in
  let params := set_if (truthy dynamic_layers) "dynamicLayers" dynamic_layers params in
  let params := set_if (negb (is_none return_m)) "returnM" return_m params in
  let params := set_if (negb (is_none return_z)) "returnZ" return_z params in
  let params := set_if (truthy gdb_version) "gdbVersion" gdb_version params in
  let params :=
    set_if (negb (is_none return_unformatted)) "returnUnformattedValues"
      return_unformatted params in
  let params :=
    set_if (negb (is_none return_field_name)) "returnFieldName"
      return_field_name params in
  let params :=
    set_if (truthy transformations) "datumTransformations" transformations
      params in
  let params :=
    set_if (truthy map_range_values) "mapRangeValues" map_range_values
      params in
  let params :=
    set_if (truthy layer_range_values) "layerRangeValues" layer_range_values
      params in
  set_if (truthy layer_parameters) "layerParameterValues" layer_parameters
    params.

Section Connection.
Variable server : nat -> pyval.

(** [MapImageLayer.identify] *)
Definition identify (self : layer) (a : args) : M pyval :=
  geometry_type <-
    lift (prefix_geometry_type (default (VStr "Point") (geometry_type a))) ;;
  let params := identify_params a geometry_type in
  let identifyURL := _url self +:+ "/identify" in
  con_post server (PathVal (VStr identifyURL)) params (token_kw self).

End Connection.

(** The value a parameter ends up with when it may fall back on a keyword
    argument: [if v is None: v = kwargs.pop(key, dflt)], read on the
    keyword arguments as they were passed. *)
Definition fallback (kwargs : dict) (v : pyval) (key : string) (dflt : pyval)
    : pyval :=
  if is_none v then default dflt (dict_lookup kwargs key) else v.

(** The parameter names [identify] can send. *)
Definition identify_keys : list string :=
  ["f"; "geometry"; "geometryType"; "tolerance"; "mapExtent"; "imageDisplay";
   "sr"; "layerDefs"; "time"; "layerTimeOptions"; "layers"; "returnGeometry";
   "maxAllowableOffset"; "geometryPrecision"; "dynamicLayers"; "returnM";
   "returnZ"; "gdbVersion"; "returnUnformattedValues"; "returnFieldName";
   "datumTransformations"; "mapRangeValues"; "layerRangeValues";
   "layerParameterValues"]%string.

End MapIdentify.

(** ** [MapImageLayerManager]: [update_tiles] and [delete_tiles] *)

Module TileManager.
Import Py PyMore Mapping.

(** What the two methods read of [self]: the admin URL, and
    [self._gis._portal.is_arcgisonline]. *)
Record manager : Type := Manager {
  _url : string;
  is_arcgisonline : pyval
}.

Definition update_tiles_params (levels extent : pyval) : gmap string pyval :=
  let params : gmap string pyval := <["f"%string := VStr "json"]> ∅ in
  let params := set_if (truthy levels) "levels" levels params in
  set_if (truthy extent) "extent" extent params.

Definition delete_tiles_params (levels extent : pyval) : gmap string pyval :=
  let params : gmap string pyval :=
    <["levels"%string := levels]> (<["f"%string := VStr "json"]> ∅) in
  set_if (truthy extent) "extent" extent params.

Section Connection.
Variable server : nat -> pyval.

(** [MapImageLayerManager.update_tiles] *)
Definition update_tiles (self : manager) (levels extent : option pyval)
    : M pyval :=
  let levels := default VNone levels in
  let extent := default VNone extent in
  if truthy (is_arcgisonline self) then
    let url := _url self +:+ "/updateTiles" in
    con_post server (PathVal (VStr url)) (update_tiles_params levels extent) []
  else ret VNone.

(** [MapImageLayerManager.delete_tiles] *)
Definition delete_tiles (self : manager) (levels : pyval)
    (extent : option pyval) : M pyval :=
  let extent := default VNone extent in
  let params := delete_tiles_params levels extent in
  let url := _url self +:+ "/deleteTiles" in
  con_post server (PathVal (VStr url)) params [].

End Connection.

End TileManager.

(** ** More sample servers *)

Module MoreExamples.
Import Py Mapping Examples.
Open Scope string_scope.

(** The server answers the submitting GET with an error document. *)
Definition refused (n : nat) : pyval :=
  VDict [("error", VDict [("code", VInt 400); ("message", VStr "Invalid URL")])].

(** The job runs, then fails, and the status document has no messages. *)
Definition fails_silently (n : nat) : pyval :=
  match n with
  | 0%nat => submitted
  | 1%nat => job "esriJobExecuting" []
  | _ => job "esriJobFailed" []
  end.

(** The job runs, then succeeds, and the status document has no results. *)
Definition done_without_results (n : nat) : pyval :=
  match n with
  | 0%nat => submitted
  | 1%nat => job "esriJobExecuting" []
  | _ => job "esriJobSucceeded" []
  end.

(** An export job whose results list the tile count before the URL. *)
Definition count_first_results : dict :=
  [("out_tile_count", VInt 12);
   ("out_service_url",
    VObj [("value",
           VStr "https://maps.example.com/jobs/j42/results/out_service_url")])].

Definition count_first (n : nat) : pyval :=
  match n with
  | 0%nat => submitted
  | _ => job "esriJobSucceeded" [("results", VDict count_first_results)]
  end.

Definition package_file (name : string) : pyval :=
  VDict [("name", VStr name);
         ("url", VStr ("https://maps.example.com/output/" +:+ name))].

(** An export job that succeeded and produced the given files. *)
Definition package_done (files : list pyval) (n : nat) : pyval :=
  match n with
  | 0%nat => submitted
  | 1%nat => job "esriJobSucceeded" [("results", export_results)]
  | _ => VDict [("files", VList files)]
  end.

End MoreExamples.

(** ** Sample calls of [export_map], [find] and [identify] *)

Module SampleCalls.
Import Py Mapping Examples.
Open Scope string_scope.

(** [export_map("-180,-90,180,90", f="image", format="jpg")] *)
Definition export_as_image : MapExport.args :=
  MapExport.Args (VStr "-180,-90,180,90") None None None None None None None
    None None None None None None None None None None None
    (Some (VStr "image")) None None [("format", VStr "jpg")].

(** [find("Main St", "", f="pjson", returnZ=True)] *)
Definition find_main_street : MapFind.args :=
  MapFind.Args (VStr "Main St") (VStr "") None None None None None None None
    None None None None None None None None None None
    [("f", VStr "pjson"); ("returnZ", VBool true)].

(** [identify("-71.06,42.36", "-72,42,-70,43", "600,550,96",
              layerDefs="0:POP>100")] *)
Definition identify_boston : MapIdentify.args :=
  MapIdentify.Args (VStr "-71.06,42.36") (VStr "-72,42,-70,43")
    (VStr "600,550,96") None None None None None None None None None None
    None None None None None None None None None None
    [("layerDefs", VStr "0:POP>100")].

End SampleCalls.

(** * Properties *)

Import Utils Py Mapping.

(** ** [rot13] *)

Ltac no_test t :=
  lazymatch t with
  | context [if _ then _ else _] => fail
  | _ => idtac
  end.

Ltac split_tests :=
  repeat match goal with
  | |- context [?a <=? ?b] =>
      no_test a; no_test b; destruct (Z.leb_spec a b); simpl
  | |- context [?a <? ?b] =>
      no_test a; no_test b; destruct (Z.ltb_spec a b); simpl
  end.

Lemma ord_lit_values :
  ord_lit "a" = 97 /\ ord_lit "m" = 109 /\ ord_lit "z" = 122 /\
  ord_lit "A" = 65 /\ ord_lit "M" = 77 /\ ord_lit "Z" = 90.
Proof. repeat split. Qed.

Lemma rot13_shift_valid c : valid_char c -> valid_char (rot13_shift c).
Proof.
  destruct ord_lit_values as (Ha & Hm & Hz & HA & HM & HZ).
  unfold valid_char, rot13_shift, max_code_point. rewrite Ha, Hm, Hz, HA, HM, HZ.
  intros H. split_tests; lia.
Qed.

Lemma rot13_shift_involutive c : rot13_shift (rot13_shift c) = c.
Proof.
  destruct ord_lit_values as (Ha & Hm & Hz & HA & HM & HZ).
  unfold rot13_shift. rewrite Ha, Hm, Hz, HA, HM, HZ.
  split_tests; lia.
Qed.

Lemma rot13_shift_lower c :
  is_lower c ->
  is_lower (rot13_shift c) /\
  rot13_shift c - ord_lit "a" = (c - ord_lit "a" + 13) mod 26.
Proof.
  destruct ord_lit_values as (Ha & Hm & Hz & HA & HM & HZ).
  unfold is_lower, rot13_shift. rewrite Ha, Hm, Hz, HA, HM, HZ.
  intros H. split_tests; try lia.
  - split; [lia|]. apply Z.mod_unique with (q := 1); lia.
  - split; [lia|]. apply Z.mod_unique with (q := 0); lia.
Qed.

Lemma rot13_shift_upper c :
  is_upper c ->
  is_upper (rot13_shift c) /\
  rot13_shift c - ord_lit "A" = (c - ord_lit "A" + 13) mod 26.
Proof.
  destruct ord_lit_values as (Ha & Hm & Hz & HA & HM & HZ).
  unfold is_upper, rot13_shift. rewrite Ha, Hm, Hz, HA, HM, HZ.
  intros H. split_tests; try lia.
  - split; [lia|]. apply Z.mod_unique with (q := 1); lia.
  - split; [lia|]. apply Z.mod_unique with (q := 0); lia.
Qed.

Lemma rot13_shift_other c :
  ~ is_lower c -> ~ is_upper c -> rot13_shift c = c.
Proof.
  destruct ord_lit_values as (Ha & Hm & Hz & HA & HM & HZ).
  unfold is_lower, is_upper, rot13_shift. rewrite Ha, Hm, Hz, HA, HM, HZ.
  intros H1 H2. split_tests; lia.
Qed.

Lemma chr_valid c : valid_char c -> chr c = Some c.
Proof.
  unfold valid_char, chr. intros [H1 H2].
  destruct (Z.leb_spec 0 c); [|lia].
  destruct (Z.leb_spec c max_code_point); [|lia]. reflexivity.
Qed.

Lemma rot13_loop_map s : forall result,
  valid_str s -> rot13_loop s result = Some (result ++ map rot13_shift s).
Proof.
  induction s as [|v s IH]; intros result Hs; simpl.
  - by rewrite app_nil_r.
  - inversion Hs as [|? ? Hv Hs']; subst.
    unfold ord. rewrite chr_valid by by apply rot13_shift_valid.
    rewrite IH by done. by rewrite <- app_assoc.
Qed.

Lemma rot13_map s : valid_str s -> rot13 s = Some (map rot13_shift s).
Proof. intros Hs. unfold rot13. by rewrite rot13_loop_map. Qed.

Lemma rot13_map_valid s : valid_str s -> valid_str (map rot13_shift s).
Proof.
  unfold valid_str. intros Hs. apply Forall_fmap.
  eapply Forall_impl; [exact Hs|]. intros c Hc. by apply rot13_shift_valid.
Qed.

(** C9. [rot13] is an involution: applying it twice gives the string back.
    It keeps the length, moves every ASCII letter 13 places round the
    alphabet of its own case, and leaves every other character as it is. *)
Theorem rot13_involution_shift (s : pystr) :
  valid_str s ->
  exists r,
    rot13 s = Some r /\ rot13 r = Some s /\ length r = length s /\
    forall (i : nat) (c : pychar), s !! i = Some c ->
      exists c', r !! i = Some c' /\
        (is_lower c -> is_lower c' /\
           c' - ord_lit "a" = (c - ord_lit "a" + 13) mod 26) /\
        (is_upper c -> is_upper c' /\
           c' - ord_lit "A" = (c - ord_lit "A" + 13) mod 26) /\
        (~ is_lower c -> ~ is_upper c -> c' = c).
Proof.
  intros Hs. exists (map rot13_shift s). repeat split.
  - by apply rot13_map.
  - rewrite rot13_map by by apply rot13_map_valid.
    f_equal. rewrite map_map. rewrite <- (map_id s) at 2.
    apply map_ext. apply rot13_shift_involutive.
  - apply length_map.
  - intros i c Hi. exists (rot13_shift c). split.
    + change (map rot13_shift s) with (rot13_shift <$> s).
      by rewrite list_lookup_fmap, Hi.
    + split; [apply rot13_shift_lower|].
      split; [apply rot13_shift_upper|apply rot13_shift_other].
Qed.

Lemma rot13_involution_shift_witness :
  exists r, rot13 [72; 101; 108; 108; 111; 44; 32; 119; 79; 114; 108; 100; 33; 8364] = Some r /\
            r = [85; 114; 121; 121; 98; 44; 32; 106; 66; 101; 121; 113; 33; 8364].
Proof.
  destruct (rot13_involution_shift
              [72; 101; 108; 108; 111; 44; 32; 119; 79; 114; 108; 100; 33; 8364])
    as (r & Hr & _).
  - unfold valid_str, valid_char, max_code_point.
    repeat (constructor; [lia|]). constructor.
  - exists r. split; [exact Hr|].
    vm_compute in Hr. congruence.
Defined.

(** ** [chunks] *)

Section Chunks.
Context {A : Type}.
Implicit Types (l : list A) (n cnt k : nat).

(** A window that starts inside the list is a plain [take] after [drop]. *)
Lemma slice_window l (i n : Z) :
  0 <= i <= Z.of_nat (length l) -> 0 < n ->
  slice l i (i + n) = take (Z.to_nat n) (drop (Z.to_nat i) l).
Proof.
  intros Hi Hn. unfold slice, slice_bound.
  destruct (Z.ltb_spec i 0); [lia|].
  destruct (Z.ltb_spec (i + n) 0); [lia|].
  rewrite (Z.min_l i) by lia.
  destruct (Z.le_ge_cases (i + n) (Z.of_nat (length l))) as [Hle|Hge].
  - rewrite Z.min_l by lia. f_equal. lia.
  - rewrite Z.min_r by lia.
    rewrite !take_ge; [done| |]; rewrite length_drop; lia.
Qed.

Lemma concat_windows cnt : forall l n,
  (0 < n)%nat -> (length l <= cnt * n)%nat ->
  concat (map (fun k => take n (drop (k * n) l)) (seq 0 cnt)) = l.
Proof.
  induction cnt as [|cnt IH]; intros l n Hn Hlen.
  - destruct l; [done|simpl in Hlen; lia].
  - rewrite <- cons_seq, <- seq_shift, map_cons, map_map. simpl concat.
    rewrite drop_0.
    rewrite (map_ext _ (fun k => take n (drop (k * n) (drop n l))))
      by (intros k; rewrite drop_drop; do 2 f_equal; lia).
    rewrite IH by (try done; rewrite length_drop; lia). apply take_drop.
Qed.

Lemma range_len_chunks (len n : Z) :
  0 <= len -> 0 < n ->
  len <= range_len 0 len n * n /\
  (0 < range_len 0 len n -> (range_len 0 len n - 1) * n < len) /\
  0 <= range_len 0 len n.
Proof.
  intros Hlen Hn. unfold range_len.
  destruct (Z.ltb_spec 0 n); [|lia].
  destruct (Z.ltb_spec 0 len); [|lia].
  rewrite Z.sub_0_r.
  pose proof (Z.div_mod (len - 1) n ltac:(lia)) as Hdm.
  pose proof (Z.mod_pos_bound (len - 1) n Hn) as Hb.
  pose proof (Z.div_pos (len - 1) n ltac:(lia) Hn).
  nia.
Qed.

(** C10. For [n > 0] the chunks of [chunks(l, n)], concatenated in the
    order they are yielded, give [l] back; every chunk has between 1 and
    [n] elements, and every chunk but the last has exactly [n]. *)
Theorem chunks_concat_lengths (l : list A) (n : Z) :
  0 < n ->
  exists cs,
    chunks l n = Some cs /\
    concat cs = l /\
    forall (i : nat) (c : list A), cs !! i = Some c ->
      1 <= Z.of_nat (length c) <= n /\
      ((S i < length cs)%nat -> Z.of_nat (length c) = n).
Proof.
  intros Hn. unfold chunks, py_range.
  destruct (Z.eqb_spec n 0) as [->|_]; [lia|].
  set (len := Z.of_nat (length l)).
  destruct (range_len_chunks len n ltac:(lia) Hn) as (Hcover & Hlast & Hpos).
  set (cnt := Z.to_nat (range_len 0 len n)) in *.
  eexists. split; [reflexivity|].
  rewrite map_map.
  assert (Hwin : forall k : nat, (k < cnt)%nat ->
            slice l (0 + Z.of_nat k * n) (0 + Z.of_nat k * n + n)
            = take (Z.to_nat n) (drop (k * Z.to_nat n) l)).
  { intros k Hk.
    assert (Hkn : 0 + Z.of_nat k * n = Z.of_nat (k * Z.to_nat n))
      by (rewrite Nat2Z.inj_mul, Z2Nat.id; lia).
    rewrite Hkn, slice_window, Nat2Z.id; [done| |done].
    rewrite <- Hkn. subst cnt.
    specialize (Hlast ltac:(lia)). nia. }
  rewrite (map_ext_in _ (fun k : nat => take (Z.to_nat n) (drop (k * Z.to_nat n) l))).
  2:{ intros k Hk. apply in_seq in Hk. apply Hwin. lia. }
  split.
  - apply concat_windows; [lia|]. subst cnt len. nia.
  - intros i c Hi.
    change (map ?f ?x) with (f <$> x) in Hi.
    rewrite list_lookup_fmap in Hi.
    destruct (seq 0 cnt !! i) as [k|] eqn:Hk; [|done].
    apply lookup_seq in Hk as [-> Hk]. simpl in Hi. injection Hi as <-.
    rewrite length_map, length_seq, length_take, length_drop.
    subst cnt. specialize (Hlast ltac:(lia)).
    subst len. split; [nia|]. intros Hnext. nia.
Qed.
End Chunks.

Lemma chunks_concat_lengths_witness :
  exists cs, chunks [10; 20; 30; 40; 50; 60; 70] 3 = Some cs /\
             cs = [[10; 20; 30]; [40; 50; 60]; [70]].
Proof.
  destruct (chunks_concat_lengths [10; 20; 30; 40; 50; 60; 70] 3) as (cs & Hcs & _).
  - lia.
  - exists cs. split; [exact Hcs|]. vm_compute in Hcs. congruence.
Defined.

(** ** Running a computation *)

Section Running.
Variable server : nat -> pyval.
Context {A B : Type}.

Lemma bind_request (e : event) (k : pyval -> M B) w :
  bind (request server e) k w
  = k (server (answered w)) (World (S (answered w)) (trace w ++ [e])).
Proof. reflexivity. Qed.

Lemma bind_assoc {C : Type} (m : M A) (k1 : A -> M B) (k2 : B -> M C) w :
  bind (bind m k1) k2 w = bind m (fun a => bind (k1 a) k2) w.
Proof. unfold bind. by destruct (m w) as [[a|e|] w']. Qed.

Lemma bind_returned (m : M A) (f : A -> M B) w b w' :
  bind m f w = (Returned b, w') ->
  exists a w1, m w = (Returned a, w1) /\ f a w1 = (Returned b, w').
Proof.
  unfold bind. destruct (m w) as [[a|e|] w1]; [|done..]. eauto.
Qed.

Lemma lift_returned (r : result A) w a w' :
  lift r w = (Returned a, w') -> r = Ok a /\ w' = w.
Proof. destruct r; [|done]. by intros [= -> ->]. Qed.

End Running.

(** ** The wait loop *)

Arguments in_strs : simpl never.
Arguments get : simpl never.
Arguments subscript : simpl never.
Arguments contains : simpl never.
Arguments eq_str : simpl never.

Section PollLoop.
Variable server : nat -> pyval.
Variables (self : layer) (path : pypath).
Implicit Types (jr st r : pyval) (w : world) (n fuel : nat).

Local Abbreviation loop fuel :=
  (poll_loop server fuel self path status_params).

Local Abbreviation after_rounds := (after_rounds self path).

Lemma after_rounds_0 w : after_rounds w 0 = w.
Proof.
  destruct w as [a t]. unfold after_rounds. simpl.
  by rewrite Nat.add_0_r, app_nil_r.
Qed.

Lemma after_rounds_S w n :
  after_rounds (World (S (answered w)) (trace w ++ one_round self path)) n
  = after_rounds w (S n).
Proof.
  unfold after_rounds. simpl answered. simpl trace. f_equal; [lia|].
  rewrite <- app_assoc. done.
Qed.

Lemma poll_loop_done fuel jr st w :
  eq_str st "esriJobSucceeded" = true -> loop fuel jr st w = (Returned jr, w).
Proof. intros H. destruct fuel; simpl; by rewrite H. Qed.

Lemma poll_loop_out_of_fuel jr st w :
  eq_str st "esriJobSucceeded" = false -> loop 0 jr st w = (Running, w).
Proof. intros H. simpl. by rewrite H. Qed.

(** One turn of the loop, spelled out on the response it fetches. *)
Lemma poll_loop_turn fuel jr st w :
  eq_str st "esriJobSucceeded" = false ->
  loop (S fuel) jr st w =
    let r := server (answered w) in
    let w1 := World (S (answered w)) (trace w ++ one_round self path) in
    match get r "status" with
    | Err e => (Raised e, w1)
    | Ok st' =>
        if in_strs st' failure_statuses then
          match subscript r "messages" with
          | Err e => (Raised e, w1)
          | Ok m =>
              (Raised (match st' with
                       | VStr s => Exception ("Job Failed with status " +:+ s)
                       | _ => TypeError
                       end),
               World (S (answered w)) (trace w1 ++ [EPrint m]))
          end
        else loop fuel r st' w1
    end.
Proof.
  intros H. simpl. rewrite H. simpl.
  unfold bind, sleep, emit, con_post, request, one_round. simpl.
  rewrite <- app_assoc. simpl.
  destruct (get (server (answered w)) "status") as [st'|e]; simpl; [|done].
  destruct (in_strs st' failure_statuses); [|done].
  destruct (subscript (server (answered w)) "messages") as [m|e]; simpl; [|done].
  unfold print_str, emit. simpl. by destruct st'.
Qed.

Lemma waiting_inv r :
  waiting r = true ->
  exists st, get r "status" = Ok st /\
             eq_str st "esriJobSucceeded" = false /\
             in_strs st failure_statuses = false.
Proof.
  unfold waiting. destruct (get r "status") as [st|e]; [|done].
  intros [H1 H2]%andb_prop. exists st.
  by rewrite negb_true_iff in H1, H2.
Qed.

(** While the responses keep the loop waiting, [n] turns only sleep and
    fetch. *)
Lemma poll_loop_waits n : forall fuel jr st w,
  eq_str st "esriJobSucceeded" = false ->
  (forall i, (i < n)%nat -> waiting (server (answered w + i)) = true) ->
  exists jr' st',
    eq_str st' "esriJobSucceeded" = false /\
    loop (n + fuel) jr st w = loop fuel jr' st' (after_rounds w n).
Proof.
  induction n as [|n IH]; intros fuel jr st w Hst Hwait.
  - exists jr, st. by rewrite after_rounds_0.
  - change (S n + fuel)%nat with (S (n + fuel)).
    rewrite poll_loop_turn by done. cbv zeta.
    destruct (waiting_inv _ (Hwait 0%nat ltac:(lia))) as (st1 & Hget & Hns & Hnf).
    rewrite Nat.add_0_r in Hget. rewrite Hget, Hnf.
    destruct (IH fuel (server (answered w)) st1
                (World (S (answered w)) (trace w ++ one_round self path)) Hns)
      as (jr' & st' & Hst' & Heq).
    { intros i Hi. simpl answered.
      replace (S (answered w) + i)%nat with (answered w + S i)%nat by lia.
      apply Hwait. lia. }
    exists jr', st'. split; [done|]. by rewrite Heq, after_rounds_S.
Qed.

Lemma succeeded_inv r :
  succeeded r = true ->
  exists st, get r "status" = Ok st /\
             eq_str st "esriJobSucceeded" = true /\
             in_strs st failure_statuses = false.
Proof.
  unfold succeeded. destruct (get r "status") as [st|e]; [|done].
  intros H. exists st. repeat split; [done|].
  destruct st; try done. simpl in H. apply String.eqb_eq in H as ->. done.
Qed.

Lemma failed_inv r :
  failed r = true ->
  exists s, get r "status" = Ok (VStr s) /\
            In s failure_statuses /\
            eq_str (VStr s) "esriJobSucceeded" = false.
Proof.
  unfold failed. destruct (get r "status") as [st|e]; [|done].
  intros H. unfold in_strs in H. apply existsb_exists in H as (s & Hin & Heq).
  destruct st; try done. simpl in Heq. apply String.eqb_eq in Heq as ->.
  exists s. repeat split; [done|].
  simpl in Hin. destruct Hin as [<-|[<-|[<-|[<-|[]]]]]; done.
Qed.

Lemma after_rounds_snoc w n :
  World (S (answered (after_rounds w n)))
        (trace (after_rounds w n) ++ one_round self path)
  = after_rounds w (S n).
Proof.
  unfold after_rounds. simpl answered. simpl trace. f_equal; [lia|].
  rewrite <- app_assoc. f_equal.
  generalize (one_round self path) as r. intros r.
  induction n as [|n IH]; simpl.
  - by rewrite app_nil_r.
  - rewrite <- app_assoc. f_equal. exact IH.
Qed.

(** After [n] waiting turns a response with the success status ends the
    loop, which hands that response back. *)
Lemma poll_loop_succeeds n fuel jr st w :
  eq_str st "esriJobSucceeded" = false ->
  (forall i, (i < n)%nat -> waiting (server (answered w + i)) = true) ->
  succeeded (server (answered w + n)) = true ->
  loop (n + S fuel) jr st w
  = (Returned (server (answered w + n)), after_rounds w (S n)).
Proof.
  intros Hst Hwait Hsucc.
  destruct (poll_loop_waits n (S fuel) jr st w Hst Hwait)
    as (jr' & st' & Hst' & ->).
  rewrite poll_loop_turn by done. cbv zeta.
  destruct (succeeded_inv _ Hsucc) as (st1 & Hget & Hs1 & Hf1).
  change (answered (after_rounds w n)) with (answered w + n)%nat at 1 2 3.
  rewrite Hget, Hf1, poll_loop_done by done.
  by rewrite <- after_rounds_snoc.
Qed.

(** After [n] waiting turns a response with a failure status ends the
    loop with an exception: the one built from the status if the response
    has messages to print, the [KeyError] of the missing entry if not. *)
Lemma poll_loop_fails n fuel jr st w s :
  eq_str st "esriJobSucceeded" = false ->
  (forall i, (i < n)%nat -> waiting (server (answered w + i)) = true) ->
  get (server (answered w + n)) "status" = Ok (VStr s) ->
  In s failure_statuses ->
  loop (n + S fuel) jr st w
  = match subscript (server (answered w + n)) "messages" with
    | Ok m =>
        (Raised (Exception ("Job Failed with status " +:+ s)),
         World (answered w + S n)
               (trace (after_rounds w (S n)) ++ [EPrint m]))
    | Err e => (Raised e, after_rounds w (S n))
    end.
Proof.
  intros Hst Hwait Hget Hin.
  destruct (poll_loop_waits n (S fuel) jr st w Hst Hwait)
    as (jr' & st' & Hst' & ->).
  rewrite poll_loop_turn by done. cbv zeta.
  change (answered (after_rounds w n)) with (answered w + n)%nat at 1 2 3 4.
  rewrite Hget.
  assert (in_strs (VStr s) failure_statuses = true) as ->.
  { apply existsb_exists. exists s. split; [done|]. apply String.eqb_refl. }
  rewrite <- (after_rounds_snoc w n), Nat.add_succ_r.
  by destruct (subscript (server (answered w + n)) "messages").
Qed.

(** While every response keeps the loop waiting it is still running,
    whatever number of turns it is followed for. *)
Lemma poll_loop_runs n jr st w :
  eq_str st "esriJobSucceeded" = false ->
  (forall i, (i < n)%nat -> waiting (server (answered w + i)) = true) ->
  loop n jr st w = (Running, after_rounds w n).
Proof.
  intros Hst Hwait.
  destruct (poll_loop_waits n 0 jr st w Hst Hwait) as (jr' & st' & Hst' & Heq).
  rewrite Nat.add_0_r in Heq. rewrite Heq.
  by apply poll_loop_out_of_fuel.
Qed.

(** The loop hands back a response only if that response carries the
    success status. *)
Lemma poll_loop_returned fuel : forall jr st w r w',
  loop fuel jr st w = (Returned r, w') ->
  (eq_str st "esriJobSucceeded" = true /\ r = jr) \/
  (exists i, (answered w <= i)%nat /\ succeeded (server i) = true).
Proof.
  induction fuel as [|fuel IH]; intros jr st w r w';
    destruct (eq_str st "esriJobSucceeded") eqn:Hst.
  - rewrite poll_loop_done by done. intros [= <- _]. by left.
  - by rewrite poll_loop_out_of_fuel.
  - rewrite poll_loop_done by done. intros [= <- _]. by left.
  - rewrite poll_loop_turn by done. cbv zeta.
    destruct (get (server (answered w)) "status") as [st'|e] eqn:Hget; [|done].
    destruct (in_strs st' failure_statuses).
    { by destruct (subscript (server (answered w)) "messages"). }
    intros [[Hst' _]|(i & Hi & Hsucc)]%IH; right.
    + exists (answered w). split; [done|]. unfold succeeded. by rewrite Hget.
    + exists i. split; [simpl in Hi; lia|done].
Qed.

End PollLoop.

(** ** Submitting a job and waiting for it *)

Section SubmitAndWait.
Variable server : nat -> pyval.
Variables (self : layer) (url : string) (params : gmap string pyval).
Implicit Types (n k fuel : nat).

Local Abbreviation wait fuel :=
  (submit_and_wait server fuel self url params fresh).
Local Abbreviation path := (job_path url (server 0%nat)).

(** The world on entry to the loop. *)
Local Abbreviation entered :=
  (World 2 [EGet (PathVal (VStr url)) params (token_kw self);
            EPost path status_params (token_kw self)]).

Lemma sync_trace_after_rounds n :
  after_rounds self path entered n
  = World (2 + n) (sync_trace self url params (server 0%nat) n).
Proof. reflexivity. Qed.

(** The synchronous branch up to the entry of the loop. *)
Lemma submit_and_wait_enter fuel :
  accepted (server 0%nat) = true ->
  has_status (server 1%nat) = true ->
  wait fuel =
    match get (server 1%nat) "status" with
    | Ok st => poll_loop server fuel self path status_params (server 1%nat) st entered
    | Err e => (Raised e, entered)
    end.
Proof.
  unfold accepted, has_status, job_path, submit_and_wait.
  intros Hacc Hhas.
  unfold bind, con_get, con_post, request, fresh. simpl.
  destruct (subscript (server 0%nat) "jobId") as [j|e]; [|done]. simpl.
  destruct (contains "status" (server 1%nat)) as [b|e]; [|done]. simpl.
  subst b.
  by destruct (get (server 1%nat) "status").
Qed.

Lemma submit_and_wait_succeeds n k :
  waits_for server n ->
  succeeded (server (1 + n)%nat) = true ->
  wait (n + k)
  = (Returned (server (1 + n)%nat),
     World (2 + n) (sync_trace self url params (server 0%nat) n)).
Proof.
  intros (Hacc & Hhas & Hwait) Hsucc.
  rewrite submit_and_wait_enter by done.
  destruct n as [|n].
  - destruct (succeeded_inv (server 1%nat) Hsucc) as (st & -> & Hst & _).
    by rewrite poll_loop_done.
  - destruct (waiting_inv (server 1%nat) (Hwait 0%nat ltac:(lia))) as (st & -> & Hst & _).
    replace (S n + k)%nat with (n + S k)%nat by lia.
    rewrite (poll_loop_succeeds server self path n k) by
      (try done; intros i Hi; apply (Hwait (S i)); lia).
    by rewrite sync_trace_after_rounds.
Qed.

Lemma submit_and_wait_fails n k s :
  waits_for server n -> (1 <= n)%nat ->
  get (server (1 + n)%nat) "status" = Ok (VStr s) ->
  In s failure_statuses ->
  wait (n + k)
  = match subscript (server (1 + n)%nat) "messages" with
    | Ok m =>
        (Raised (Exception ("Job Failed with status " +:+ s)),
         World (2 + n)
               (sync_trace self url params (server 0%nat) n ++ [EPrint m]))
    | Err e =>
        (Raised e, World (2 + n) (sync_trace self url params (server 0%nat) n))
    end.
Proof.
  intros (Hacc & Hhas & Hwait) Hn Hget Hin.
  rewrite submit_and_wait_enter by done.
  destruct n as [|n]; [lia|].
  destruct (waiting_inv (server 1%nat) (Hwait 0%nat ltac:(lia))) as (st & -> & Hst & _).
  replace (S n + k)%nat with (n + S k)%nat by lia.
  rewrite (poll_loop_fails server self path n k _ _ _ s) by
    (try done; intros i Hi; apply (Hwait (S i)); lia).
  rewrite sync_trace_after_rounds.
  change (answered entered + n)%nat with (1 + S n)%nat.
  by destruct (subscript (server (1 + S n)%nat) "messages").
Qed.

Lemma submit_and_wait_runs n :
  waits_for server (S n) ->
  wait n = (Running, World (2 + n) (sync_trace self url params (server 0%nat) n)).
Proof.
  intros (Hacc & Hhas & Hwait).
  rewrite submit_and_wait_enter by done.
  destruct (waiting_inv (server 1%nat) (Hwait 0%nat ltac:(lia))) as (st & -> & Hst & _).
  rewrite (poll_loop_runs server self path n) by
    (try done; intros i Hi; apply (Hwait (S i)); lia).
  by rewrite sync_trace_after_rounds.
Qed.

(** A synchronous wait comes back only after a status request was answered
    with the success status. *)
Lemma submit_and_wait_returned fuel r w' :
  wait fuel = (Returned r, w') ->
  exists i, succeeded (server (1 + i)%nat) = true.
Proof.
  unfold submit_and_wait, con_get, con_post.
  rewrite bind_request.
  intros (j & w1 & (_ & ->)%lift_returned & Hrun)%bind_returned.
  apply bind_returned in Hrun as (j' & w2 & (_ & ->)%lift_returned & Hrun).
  rewrite bind_request in Hrun.
  apply bind_returned in Hrun as (b & w3 & (_ & ->)%lift_returned & Hrun).
  destruct b; [|done].
  apply bind_returned in Hrun as (st & w4 & (Hget & ->)%lift_returned & Hrun).
  simpl in Hget.
  apply poll_loop_returned in Hrun as [[Hst _]|(i & Hi & Hsucc)].
  - exists 0%nat. unfold succeeded. simpl. by rewrite Hget.
  - exists (i - 1)%nat. simpl in Hi.
    by replace (1 + (i - 1))%nat with i by lia.
Qed.

End SubmitAndWait.

(** ** Effects only accumulate *)

Section Growth.
Variable server : nat -> pyval.
Variable tempdir : string.
Context {A B : Type}.

Lemma grows_ret (a : A) : grows (ret a).
Proof.
  intros w o w' [= <- <-]. split; [done|]. exists []. by rewrite app_nil_r.
Qed.

Lemma grows_raise (e : exn) : grows (@raise A e).
Proof.
  intros w o w' [= <- <-]. split; [done|]. exists []. by rewrite app_nil_r.
Qed.

Lemma grows_running : grows (@running A).
Proof.
  intros w o w' [= <- <-]. split; [done|]. exists []. by rewrite app_nil_r.
Qed.

Lemma grows_lift (r : result A) : grows (lift r).
Proof. destruct r; [apply grows_ret|apply grows_raise]. Qed.

Lemma grows_emit (e : event) : grows (emit e).
Proof. intros w o w' [= <- <-]. split; [done|]. by exists [e]. Qed.

Lemma grows_request (e : event) : grows (request server e).
Proof. intros w o w' [= <- <-]. split; [simpl; lia|]. by exists [e]. Qed.

Lemma grows_bind (m : M A) (k : A -> M B) :
  grows m -> (forall a, grows (k a)) -> grows (bind m k).
Proof.
  intros Hm Hk w o w'. unfold bind.
  destruct (m w) as [[a|e|] w1] eqn:Hrun; destruct (Hm _ _ _ Hrun) as (Hle & evs & Hevs).
  - intros Hk1. destruct (Hk _ _ _ _ Hk1) as (Hle' & evs' & Hevs').
    split; [lia|]. exists (evs ++ evs'). by rewrite Hevs', Hevs, app_assoc.
  - intros [= <- <-]. eauto.
  - intros [= <- <-]. eauto.
Qed.

Lemma request_then_grows (e : event) (k : pyval -> M B) w :
  (forall a, grows (k a)) ->
  exists o w' evs,
    bind (request server e) k w = (o, w') /\ trace w' = trace w ++ e :: evs.
Proof.
  intros Hk. rewrite bind_request.
  destruct (k (server (answered w)) (World (S (answered w)) (trace w ++ [e])))
    as [o w'] eqn:Hrun.
  destruct (Hk _ _ _ _ Hrun) as (_ & evs & Hevs).
  exists o, w', evs. split; [done|].
  by rewrite Hevs; simpl; rewrite <- app_assoc.
Qed.

End Growth.

Ltac grows_step :=
  first
    [ apply grows_ret | apply grows_raise | apply grows_running
    | apply grows_lift | apply grows_emit | apply grows_request
    | apply grows_bind; [|intros ?]
    | match goal with
      | |- grows (if ?b then _ else _) => destruct b
      | |- grows (match ?x with _ => _ end) => destruct x
      end ].

Section GrowthOfCalls.
Variable server : nat -> pyval.
Variable tempdir : string.

Lemma grows_poll_loop fuel : forall self path params job_response status,
  grows (poll_loop server fuel self path params job_response status).
Proof.
  induction fuel as [|fuel IH]; intros self path params job_response status;
    simpl; destruct (negb _); try (by grows_step).
  unfold sleep, con_post, print_str.
  repeat (try apply IH; grows_step).
Qed.

Lemma grows_fetch_results self tile_package allResults :
  grows (fetch_results server tempdir self tile_package allResults).
Proof.
  unfold fetch_results, download_files, con_get. repeat grows_step.
Qed.

End GrowthOfCalls.

(** ** The two methods *)

Section Calls.
Variable server : nat -> pyval.
Variable tempdir : string.
Variable self : layer.
Variables (export_by levels : pyval).
Variables (tile_package export_extent area_of_interest : option pyval).
Variable kwargs : dict.
Variables (export_by_x optimize_for_size compression : option pyval).
Implicit Types (asynchronous : option pyval) (n k fuel : nat) (w : world).

Local Abbreviation estimate_url := (_url self +:+ "/estimateExportTilesSize").
Local Abbreviation export_url := (_url self +:+ "/exportTiles").

(** The parameters each method sends with its submitting GET. *)
Local Abbreviation estimate_request :=
  (estimate_params export_by levels
     (default (VBool false) tile_package)
     (default (VStr "DEFAULTEXTENT") export_extent)
     (default VNone area_of_interest) kwargs).

Local Abbreviation export_request :=
  (export_params levels
     (default (VStr "LevelID") export_by_x)
     (default (VBool false) tile_package)
     (default (VStr "DEFAULT") export_extent)
     (default (VBool true) optimize_for_size)
     (default (VInt 75) compression)
     (default VNone area_of_interest) kwargs).

Local Abbreviation estimate asynchronous fuel :=
  (estimate_export_tiles_size server fuel self export_by levels tile_package
     export_extent area_of_interest asynchronous kwargs).

Local Abbreviation export asynchronous fuel :=
  (export_tiles server tempdir fuel self levels export_by_x tile_package
     export_extent optimize_for_size compression area_of_interest
     asynchronous kwargs).

(** Whether a call is synchronous, given the default of its
    [asynchronous] parameter. *)
Local Abbreviation sync dflt asynchronous :=
  (eq_bool (default (VBool dflt) asynchronous) true = false).

Lemma estimate_blocked asynchronous fuel w flag :
  subscript (properties self) "exportTilesAllowed" = Ok flag ->
  eq_bool flag false = true ->
  estimate asynchronous fuel w = (Returned VNone, w).
Proof.
  intros Hflag Hfalse. unfold estimate_export_tiles_size, bind.
  rewrite Hflag. simpl. by rewrite Hfalse.
Qed.

Lemma export_allowed_inv :
  export_allowed self = true ->
  exists flag, subscript (properties self) "exportTilesAllowed" = Ok flag /\
               eq_bool flag false = false.
Proof.
  unfold export_allowed.
  destruct (subscript (properties self) "exportTilesAllowed") as [flag|e];
    [|done].
  intros H%negb_true_iff. by exists flag.
Qed.

Lemma estimate_asynchronous asynchronous fuel w :
  export_allowed self = true ->
  eq_bool (default (VBool true) asynchronous) true = true ->
  estimate asynchronous fuel w
  = (Returned (server (answered w)),
     World (S (answered w))
           (trace w ++ [EGet (PathVal (VStr estimate_url)) estimate_request
                             (token_kw self)])).
Proof.
  intros (flag & Hflag & Hallowed)%export_allowed_inv Hasync.
  unfold estimate_export_tiles_size, bind.
  rewrite Hflag. simpl. by rewrite Hallowed, Hasync.
Qed.

Lemma estimate_synchronous asynchronous fuel w :
  export_allowed self = true ->
  sync true asynchronous ->
  estimate asynchronous fuel w
  = bind (submit_and_wait server fuel self estimate_url estimate_request)
         (fun job_response => lift (subscript job_response "results")) w.
Proof.
  intros (flag & Hflag & Hallowed)%export_allowed_inv Hsync.
  unfold estimate_export_tiles_size. unfold bind at 1.
  rewrite Hflag. simpl. by rewrite Hallowed, Hsync.
Qed.

Lemma export_asynchronous asynchronous fuel w :
  eq_bool (default (VBool false) asynchronous) true = true ->
  export asynchronous fuel w
  = (Returned (server (answered w)),
     World (S (answered w))
           (trace w ++ [EGet (PathVal (VStr export_url)) export_request
                             (token_kw self)])).
Proof. intros Hasync. unfold export_tiles. by rewrite Hasync. Qed.

Lemma export_synchronous asynchronous fuel w :
  sync false asynchronous ->
  export asynchronous fuel w
  = bind (submit_and_wait server fuel self export_url export_request)
         (fun job_response =>
            bind (lift (subscript job_response "results"))
                 (fetch_results server tempdir self
                    (default (VBool false) tile_package))) w.
Proof. intros Hsync. unfold export_tiles. by rewrite Hsync. Qed.

(** C1, as the code has it. In a synchronous call whose job was accepted,
    once the first [n] status documents have kept the wait going: if the
    next one, fetched inside the loop, carries a failure status, both
    methods raise and return nothing; if it carries the success status and
    a ['results'] entry, [estimate_export_tiles_size] returns that entry
    unchanged, and [export_tiles] hands the same entry to the step that
    fetches the exported tiles. *)
Theorem wait_raises_or_hands_over_results asynchronous asynchronous_x n k :
  export_allowed self = true ->
  sync true asynchronous ->
  sync false asynchronous_x ->
  waits_for server n ->
  ((1 <= n)%nat -> failed (server (1 + n)%nat) = true ->
     (exists e w, estimate asynchronous (n + k) fresh = (Raised e, w)) /\
     (exists e w, export asynchronous_x (n + k) fresh = (Raised e, w))) /\
  (forall results : pyval,
     succeeded (server (1 + n)%nat) = true ->
     subscript (server (1 + n)%nat) "results" = Ok results ->
     estimate asynchronous (n + k) fresh
     = (Returned results,
        World (2 + n)
              (sync_trace self estimate_url estimate_request (server 0%nat) n))
     /\
     export asynchronous_x (n + k) fresh
     = fetch_results server tempdir self (default (VBool false) tile_package)
         results
         (World (2 + n)
                (sync_trace self export_url export_request (server 0%nat) n))).
Proof.
  intros Hallowed Hsync Hsync_x Hwaits.
  rewrite estimate_synchronous, export_synchronous by done.
  unfold bind. split.
  - intros Hn (s & Hget & Hin & _)%failed_inv.
    rewrite !(submit_and_wait_fails server self _ _ n k s) by done.
    destruct (subscript (server (1 + n)%nat) "messages");
      split; eexists _, _; reflexivity.
  - intros results Hsucc Hres.
    rewrite !submit_and_wait_succeeds by done.
    cbv beta iota. by rewrite Hres.
Qed.

(** C3, as the code has it. When a status document fetched inside the
    loop carries a failure status, the loop prints the document's
    ['messages'] entry and then raises an exception whose text is
    ['Job Failed with status '] followed by the status: the messages go to
    standard output and are no part of the exception. *)
Theorem failure_prints_messages_and_raises_status
    asynchronous asynchronous_x n k (s : string) (messages : pyval) :
  export_allowed self = true ->
  sync true asynchronous ->
  sync false asynchronous_x ->
  waits_for server n -> (1 <= n)%nat ->
  get (server (1 + n)%nat) "status" = Ok (VStr s) ->
  In s failure_statuses ->
  subscript (server (1 + n)%nat) "messages" = Ok messages ->
  estimate asynchronous (n + k) fresh
  = (Raised (Exception ("Job Failed with status " +:+ s)),
     World (2 + n)
           (sync_trace self estimate_url estimate_request (server 0%nat) n
            ++ [EPrint messages]))
  /\
  export asynchronous_x (n + k) fresh
  = (Raised (Exception ("Job Failed with status " +:+ s)),
     World (2 + n)
           (sync_trace self export_url export_request (server 0%nat) n
            ++ [EPrint messages])).
Proof.
  intros Hallowed Hsync Hsync_x Hwaits Hn Hget Hin Hmsg.
  rewrite estimate_synchronous, export_synchronous by done.
  unfold bind.
  rewrite !(submit_and_wait_fails server self _ _ n k s) by done.
  by rewrite Hmsg.
Qed.

(** C5. The loop sleeps five seconds before every status request it makes
    and has no bound on turns or time. Without a status request answered
    with the success status a synchronous call never returns, however many
    turns it is followed for. And as long as the status documents name no
    final status at all it does not end in any other way either: after any
    number [n] of turns it is still inside the loop, where all it has done
    is [n] times sleep for 5 seconds and fetch the status. *)
Theorem wait_never_ends_without_final_status asynchronous asynchronous_x :
  export_allowed self = true ->
  sync true asynchronous ->
  sync false asynchronous_x ->
  let estimate_path := job_path estimate_url (server 0%nat) in
  let export_path := job_path export_url (server 0%nat) in
  ((forall i, succeeded (server (1 + i)%nat) = false) ->
   forall n result,
     fst (estimate asynchronous n fresh) <> Returned result /\
     fst (export asynchronous_x n fresh) <> Returned result) /\
  (accepted (server 0%nat) = true ->
   has_status (server 1%nat) = true ->
   (forall i, waiting (server (1 + i)%nat) = true) ->
   forall n,
     estimate asynchronous n fresh
     = (Running,
        World (2 + n)
          ([EGet (PathVal (VStr estimate_url)) estimate_request (token_kw self);
            EPost estimate_path status_params (token_kw self)]
           ++ concat (replicate n
                [ESleep 5; EPost estimate_path status_params (token_kw self)])))
     /\
     export asynchronous_x n fresh
     = (Running,
        World (2 + n)
          ([EGet (PathVal (VStr export_url)) export_request (token_kw self);
            EPost export_path status_params (token_kw self)]
           ++ concat (replicate n
                [ESleep 5; EPost export_path status_params (token_kw self)])))).
Proof.
  intros Hallowed Hsync Hsync_x estimate_path export_path. split.
  - intros Hnever n result.
    rewrite estimate_synchronous, export_synchronous by done.
    split; intros Hret;
      match type of Hret with
      | fst ?run = _ => destruct run as [o w'] eqn:Hrun
      end; simpl in Hret; subst o;
      apply bind_returned in Hrun as (jr & w1 & Hwait & _);
      apply submit_and_wait_returned in Hwait as [i Hi];
      by rewrite Hnever in Hi.
  - intros Hacc Hhas Hwait n.
    rewrite estimate_synchronous, export_synchronous by done.
    unfold bind.
    by rewrite !submit_and_wait_runs by (repeat split; auto).
Qed.

(** C6, as the code has it. With [asynchronous] equal to [True],
    [export_tiles] makes exactly one request, a GET, and returns the decoded
    answer; so does [estimate_export_tiles_size] when the service allows
    tile export, and in no case does it make any other request. Neither
    method sleeps or asks for a job status in such a call: the wait is
    entered only when [asynchronous] does not equal [True]. *)
Theorem asynchronous_call_is_one_get_at_most asynchronous asynchronous_x fuel :
  eq_bool (default (VBool true) asynchronous) true = true ->
  eq_bool (default (VBool false) asynchronous_x) true = true ->
  let estimate_get :=
    EGet (PathVal (VStr estimate_url)) estimate_request (token_kw self) in
  let export_get :=
    EGet (PathVal (VStr export_url)) export_request (token_kw self) in
  (export_allowed self = true ->
     estimate asynchronous fuel fresh
     = (Returned (server 0%nat), World 1 [estimate_get])) /\
  (exists o w,
     estimate asynchronous fuel fresh = (o, w) /\
     (trace w = [] \/ trace w = [estimate_get])) /\
  export asynchronous_x fuel fresh
  = (Returned (server 0%nat), World 1 [export_get]).
Proof.
  intros Hasync Hasync_x estimate_get export_get. split; [|split].
  - intros Hallowed. by rewrite estimate_asynchronous.
  - destruct (subscript (properties self) "exportTilesAllowed")
      as [flag|e] eqn:Hflag.
    + destruct (eq_bool flag false) eqn:Hfalse.
      * rewrite (estimate_blocked _ _ _ flag) by done. eauto.
      * rewrite estimate_asynchronous; [eauto|by unfold export_allowed; rewrite Hflag, Hfalse|done].
    + unfold estimate_export_tiles_size, bind. rewrite Hflag. simpl. eauto.
  - by rewrite export_asynchronous.
Qed.

Lemma export_starts_with_get asynchronous fuel w :
  exists o w' evs,
    export asynchronous fuel w = (o, w') /\
    trace w'
    = trace w
      ++ EGet (PathVal (VStr export_url)) export_request (token_kw self) :: evs.
Proof.
  destruct (eq_bool (default (VBool false) asynchronous) true) eqn:Hasync.
  - rewrite export_asynchronous by done. by eexists _, _, [].
  - rewrite export_synchronous by done.
    unfold submit_and_wait, con_get. rewrite bind_assoc.
    apply request_then_grows. intros exportJob. unfold con_post.
    repeat (try apply grows_poll_loop; try apply grows_fetch_results;
            grows_step).
Qed.

(** C8. When the service's properties map ['exportTilesAllowed'] to
    [False], [estimate_export_tiles_size] returns [None] at once, with no
    request, no sleep and no output; [export_tiles] has no such guard and
    sends its GET all the same. *)
Theorem estimate_is_guarded_export_is_not asynchronous asynchronous_x fuel w :
  subscript (properties self) "exportTilesAllowed" = Ok (VBool false) ->
  estimate asynchronous fuel w = (Returned VNone, w) /\
  exists o w' evs,
    export asynchronous_x fuel w = (o, w') /\
    trace w'
    = trace w
      ++ EGet (PathVal (VStr export_url)) export_request (token_kw self) :: evs.
Proof.
  intros Hflag. split.
  - by apply (estimate_blocked _ _ _ (VBool false)).
  - apply export_starts_with_get.
Qed.

End Calls.

(** ** The request builders *)

Section Builders.
Implicit Types (params : gmap string pyval) (kwargs : dict) (k : string).

Lemma dict_lookup_app (d1 d2 : dict) k :
  dict_lookup (d1 ++ d2) k
  = match dict_lookup d1 k with
    | Some v => Some v
    | None => dict_lookup d2 k
    end.
Proof.
  induction d1 as [|[k' v] d1 IH]; simpl; [done|].
  by destruct (String.eqb k' k).
Qed.

Lemma lookup_foldl_kwargs kwargs : forall params k,
  foldl (fun p kv => <[kv.1 := kv.2]> p) params kwargs !! k
  = match kwargs_value kwargs k with
    | Some v => Some v
    | None => params !! k
    end.
Proof.
  unfold kwargs_value.
  induction kwargs as [|[k' v] kwargs IH]; intros params k; simpl; [done|].
  rewrite IH, dict_lookup_app. destruct (dict_lookup (rev kwargs) k); [done|].
  simpl. destruct (String.eqb_spec k' k) as [->|Hne].
  - by rewrite lookup_insert_eq.
  - by rewrite lookup_insert_ne.
Qed.

Lemma lookup_update_kwargs params kwargs k :
  update_kwargs params kwargs !! k
  = match kwargs_value kwargs k with
    | Some v => Some v
    | None => params !! k
    end.
Proof.
  unfold update_kwargs. destruct kwargs as [|kv kwargs]; [done|].
  change (0 <? length (kv :: kwargs))%nat with true. cbv iota.
  apply lookup_foldl_kwargs.
Qed.

(** After the loop over [kwargs], [area_of_interest] is stored last. *)
Lemma lookup_with_area params (area_of_interest : pyval) k :
  (if negb (is_none area_of_interest)
   then <["areaOfInterest"%string := area_of_interest]> params
   else params) !! k
  = if bool_decide (k = "areaOfInterest"%string) && negb (is_none area_of_interest)
    then Some area_of_interest
    else params !! k.
Proof.
  destruct (negb (is_none area_of_interest)); [|by rewrite andb_false_r].
  rewrite andb_true_r. case_bool_decide as Hk.
  - subst k. by rewrite lookup_insert_eq.
  - by rewrite lookup_insert_ne.
Qed.

Lemma is_none_false (v : pyval) : negb (is_none v) = true <-> v <> VNone.
Proof. by destruct v. Qed.

Variables (export_by levels : pyval).
Variables (tile_package export_extent area_of_interest : option pyval).
Variable kwargs : dict.
Variables (export_by_x optimize_for_size compression : option pyval).

Local Abbreviation estimate_request :=
  (estimate_params export_by levels
     (default (VBool false) tile_package)
     (default (VStr "DEFAULTEXTENT") export_extent)
     (default VNone area_of_interest) kwargs).

Local Abbreviation export_request :=
  (export_params levels
     (default (VStr "LevelID") export_by_x)
     (default (VBool false) tile_package)
     (default (VStr "DEFAULT") export_extent)
     (default (VBool true) optimize_for_size)
     (default (VInt 75) compression)
     (default VNone area_of_interest) kwargs).

(** What a key holds once the extra keyword arguments have been copied
    over the value [v] the builder gave it. *)
Local Abbreviation overridden k v :=
  (Some (default v (kwargs_value kwargs k))).

(** C7, as the code has it. Both builders copy the extra keyword
    arguments over the mapping they start from and store
    [area_of_interest] last. So ['areaOfInterest'] is a key of the result
    exactly when [area_of_interest] is not [None] or the keyword arguments
    have that key; and each of ['f'], ['levels'], ['exportBy'],
    ['tilePackage'] and ['exportExtent'] is always a key, holding the given
    or default value unless a keyword argument of the same name replaces
    it. *)
Theorem builders_keys :
  (forall p, p = estimate_request \/ p = export_request ->
     (is_Some (p !! "areaOfInterest"%string) <->
        default VNone area_of_interest <> VNone \/
        is_Some (kwargs_value kwargs "areaOfInterest")) /\
     p !! "f"%string = overridden "f"%string (VStr "json") /\
     p !! "levels"%string = overridden "levels"%string levels /\
     p !! "tilePackage"%string
     = overridden "tilePackage"%string (default (VBool false) tile_package)) /\
  estimate_request !! "exportBy"%string
  = overridden "exportBy"%string export_by /\
  estimate_request !! "exportExtent"%string
  = overridden "exportExtent"%string
      (default (VStr "DEFAULTEXTENT") export_extent) /\
  export_request !! "exportBy"%string
  = overridden "exportBy"%string (default (VStr "LevelID") export_by_x) /\
  export_request !! "exportExtent"%string
  = overridden "exportExtent"%string (default (VStr "DEFAULT") export_extent).
Proof.
  assert (Hother : forall params k v,
            k <> "areaOfInterest"%string -> params !! k = Some v ->
            (if negb (is_none (default VNone area_of_interest))
             then <["areaOfInterest"%string := default VNone area_of_interest]>
                    (update_kwargs params kwargs)
             else update_kwargs params kwargs) !! k
            = overridden k v).
  { intros params k v Hk Hv. rewrite lookup_with_area, lookup_update_kwargs.
    rewrite bool_decide_eq_false_2 by done. simpl.
    by destruct (kwargs_value kwargs k). }
  assert (Harea : forall params,
            params !! "areaOfInterest"%string = None ->
            is_Some ((if negb (is_none (default VNone area_of_interest))
                      then <["areaOfInterest"%string :=
                               default VNone area_of_interest]>
                             (update_kwargs params kwargs)
                      else update_kwargs params kwargs)
                     !! "areaOfInterest"%string) <->
            default VNone area_of_interest <> VNone \/
            is_Some (kwargs_value kwargs "areaOfInterest")).
  { intros params Hnone. rewrite lookup_with_area, lookup_update_kwargs, Hnone.
    rewrite bool_decide_eq_true_2 by done. simpl.
    rewrite <- is_none_false.
    destruct (negb (is_none (default VNone area_of_interest))).
    - split; [by left|by eexists].
    - destruct (kwargs_value kwargs "areaOfInterest") as [v|].
      + split; [intros _; right|intros _]; by eexists.
      + split; [by intros [x Hx]|by intros [H|[x Hx]]]. }
  split.
  - intros p [-> | ->]; unfold estimate_params, export_params; cbv zeta;
      (split; [apply Harea; by simplify_map_eq|]);
      repeat split; apply Hother; by simplify_map_eq.
  - unfold estimate_params, export_params; cbv zeta.
    repeat split; apply Hother; by simplify_map_eq.
Qed.

End Builders.

(** ** The claims on sample runs *)

Section SampleRuns.
Import Examples.

(** A synchronous estimate and a synchronous export of levels 1 to 3 of
    [layer], followed for at most [fuel] turns of the wait. *)
Local Abbreviation estimate_of layer server fuel :=
  (estimate_export_tiles_size server fuel layer (VStr "LevelID") (VStr "1-3")
     None None None (Some (VBool false)) [] fresh).

Local Abbreviation export_of layer server fuel :=
  (export_tiles server "/tmp" fuel layer (VStr "1-3")
     None None None None None None None [] fresh).

(** C1 does not hold as it is written. A job that is being cancelled when
    its status is first fetched, and has succeeded at the next fetch, makes
    [estimate_export_tiles_size] return a result although a failure status
    was polled. And [export_tiles], on a job that succeeded, returns the
    folders of the exported cache, not the ['results'] mapping; when the
    result entry is plain JSON it returns nothing at all, since reading
    [v.value] raises. *)
Lemma polled_failure_can_return_and_export_returns_folders :
  (failed (cancelling_then_done 1) = true /\
   fst (estimate_of world_layer cancelling_then_done 3) = Returned estimate) /\
  (succeeded (export_done 1) = true /\
   subscript (export_done 1) "results" = Ok export_results /\
   fst (export_of world_layer export_done 3) = Returned export_folders /\
   export_folders <> export_results) /\
  (succeeded (export_done_json 1) = true /\
   subscript (export_done_json 1) "results" = Ok export_results_json /\
   fst (export_of world_layer export_done_json 3)
   = Raised (AttributeError "value")).
Proof. repeat split; try (vm_compute; reflexivity). discriminate. Qed.

(** C2 is not what the code does. When the job has already failed at the
    first status fetch, neither method raises there: each enters the loop,
    sleeps five seconds, fetches the status a second time, and raises only
    on that second answer. If the second answer names the success status
    instead, the call returns normally. *)
Theorem first_failure_status_is_polled_again :
  failed (failed_at_once 1) = true /\
  estimate_of world_layer failed_at_once 0
  = (Running,
     World 2 (sync_trace world_layer
                (_url world_layer +:+ "/estimateExportTilesSize")
                (estimate_params (VStr "LevelID") (VStr "1-3") (VBool false)
                   (VStr "DEFAULTEXTENT") VNone [])
                submitted 0)) /\
  fst (estimate_of world_layer failed_at_once 3)
  = Raised (Exception "Job Failed with status esriJobFailed") /\
  kinds (snd (estimate_of world_layer failed_at_once 3))
  = [Get; Post; Sleep 5; Post; Print] /\
  fst (export_of world_layer failed_at_once 3)
  = Raised (Exception "Job Failed with status esriJobFailed") /\
  kinds (snd (export_of world_layer failed_at_once 3))
  = [Get; Post; Sleep 5; Post; Print] /\
  failed (cancelling_then_done 1) = true /\
  fst (estimate_of world_layer cancelling_then_done 3) = Returned estimate /\
  kinds (snd (estimate_of world_layer cancelling_then_done 3))
  = [Get; Post; Sleep 5; Post].
Proof. repeat split; vm_compute; reflexivity. Qed.

(** C3 does not hold as it is written. The exception raised for a failed
    job is the same whatever messages the server sent, and its text does
    not contain them. *)
Lemma raised_error_does_not_carry_messages :
  fst (estimate_of world_layer (fails_later locked_messages) 3)
  = Raised (Exception "Job Failed with status esriJobFailed") /\
  fst (estimate_of world_layer (fails_later quota_messages) 3)
  = fst (estimate_of world_layer (fails_later locked_messages) 3) /\
  fst (export_of world_layer (fails_later quota_messages) 3)
  = fst (export_of world_layer (fails_later locked_messages) 3) /\
  locked_messages <> quota_messages /\
  mentions "Job Failed with status esriJobFailed" "Tile cache is locked"
  = false.
Proof. repeat split; try (vm_compute; reflexivity). discriminate. Qed.

(** C4 is not what the code does. A status document without a ['status']
    entry raises only when it is the first one fetched. Inside the loop it
    reads as status [None], which is neither the success status nor a
    failure status: the call neither raises nor returns, and goes on
    sleeping and polling for as long as such documents come. *)
Theorem missing_status_inside_the_loop_is_polled_on (n : nat) :
  has_status (status_lost 2) = false /\
  fst (estimate_of world_layer status_lost n) = Running /\
  fst (export_of world_layer status_lost n) = Running /\
  kinds (snd (estimate_of world_layer status_lost 2))
  = [Get; Post; Sleep 5; Post; Sleep 5; Post].
Proof.
  assert (Hwaits : waits_for status_lost (S n)).
  { repeat split. intros [|[|i]] _; reflexivity. }
  split; [reflexivity|].
  rewrite estimate_synchronous, export_synchronous by reflexivity.
  unfold bind. rewrite !submit_and_wait_runs by exact Hwaits.
  repeat split.
Qed.

(** The part of C4 that the code does have: a first status document
    without a ['status'] entry makes both methods raise at once. *)
Lemma missing_status_at_first_fetch_raises :
  has_status (no_status 1) = false /\
  fst (estimate_of world_layer no_status 3)
  = Raised (Exception "No job results.") /\
  kinds (snd (estimate_of world_layer no_status 3)) = [Get; Post] /\
  fst (export_of world_layer no_status 3)
  = Raised (Exception "No job results.") /\
  kinds (snd (export_of world_layer no_status 3)) = [Get; Post].
Proof. repeat split; vm_compute; reflexivity. Qed.

(** C6 does not hold as it is written. On a service that does not allow
    tile export, an asynchronous [estimate_export_tiles_size] makes no
    request at all and returns [None], not a job response. *)
Lemma asynchronous_estimate_without_get :
  estimate_export_tiles_size never_done 3 locked_layer (VStr "LevelID")
    (VStr "1-3") None None None (Some (VBool true)) [] fresh
  = (Returned VNone, fresh).
Proof. vm_compute; reflexivity. Qed.

(** C7 does not hold as it is written. An extra keyword argument named
    ['areaOfInterest'] puts that key into the parameters although
    [area_of_interest] is [None], and one named ['f'] replaces the value of
    the required key ['f']. *)
Lemma keyword_arguments_reach_the_parameters :
  estimate_params (VStr "LevelID") (VStr "1-3") (VBool false)
    (VStr "DEFAULTEXTENT") VNone [("areaOfInterest"%string, VStr "{}")]
  !! "areaOfInterest"%string = Some (VStr "{}") /\
  export_params (VStr "1-3") (VStr "LevelID") (VBool false) (VStr "DEFAULT")
    (VBool true) (VInt 75) VNone [("f"%string, VStr "pjson")]
  !! "f"%string = Some (VStr "pjson").
Proof. split; vm_compute; reflexivity. Qed.

(** *** The general statements applied to sample runs *)

Lemma wait_raises_or_hands_over_results_witness :
  (exists e w,
     estimate_of world_layer (fails_later locked_messages) 1 = (Raised e, w)) /\
  fst (estimate_of world_layer done_later 1) = Returned estimate.
Proof.
  split.
  - destruct (wait_raises_or_hands_over_results (fails_later locked_messages)
                "/tmp" world_layer (VStr "LevelID") (VStr "1-3") None None
                None [] None None None (Some (VBool false)) None 1 0)
      as [Hfail _].
    + reflexivity.
    + reflexivity.
    + reflexivity.
    + repeat split. intros [|i] Hi; [reflexivity|lia].
    + destruct Hfail as [He _]; [lia|reflexivity|]. exact He.
  - destruct (wait_raises_or_hands_over_results done_later
                "/tmp" world_layer (VStr "LevelID") (VStr "1-3") None None
                None [] None None None (Some (VBool false)) None 1 0)
      as [_ Hdone].
    + reflexivity.
    + reflexivity.
    + reflexivity.
    + repeat split. intros [|i] Hi; [reflexivity|lia].
    + destruct (Hdone estimate) as [He _]; [reflexivity|reflexivity|].
      exact (f_equal fst He).
Defined.

Lemma failure_prints_messages_and_raises_status_witness :
  fst (estimate_of world_layer (fails_later locked_messages) 1)
  = Raised (Exception "Job Failed with status esriJobFailed") /\
  kinds (snd (export_of world_layer (fails_later locked_messages) 1))
  = [Get; Post; Sleep 5; Post; Print].
Proof.
  destruct (failure_prints_messages_and_raises_status
              (fails_later locked_messages) "/tmp" world_layer
              (VStr "LevelID") (VStr "1-3") None None None [] None None None
              (Some (VBool false)) None 1 0 "esriJobFailed" locked_messages)
    as [He Hx].
  - reflexivity.
  - reflexivity.
  - reflexivity.
  - repeat split. intros [|i] Hi; [reflexivity|lia].
  - lia.
  - reflexivity.
  - simpl. tauto.
  - reflexivity.
  - split; [exact (f_equal fst He)|].
    exact (f_equal (fun run => kinds (snd run)) Hx).
Defined.

Lemma wait_never_ends_without_final_status_witness :
  fst (estimate_of world_layer never_done 2) = Running /\
  kinds (snd (export_of world_layer never_done 2))
  = [Get; Post; Sleep 5; Post; Sleep 5; Post].
Proof.
  destruct (wait_never_ends_without_final_status never_done "/tmp"
              world_layer (VStr "LevelID") (VStr "1-3") None None None []
              None None None (Some (VBool false)) None)
    as [_ Hruns].
  - reflexivity.
  - reflexivity.
  - reflexivity.
  - destruct (Hruns eq_refl eq_refl) with (n := 2%nat) as [He Hx].
    + intros [|i]; reflexivity.
    + split; [exact (f_equal fst He)|].
      exact (f_equal (fun run => kinds (snd run)) Hx).
Defined.

Lemma asynchronous_call_is_one_get_at_most_witness :
  fst (estimate_export_tiles_size never_done 3 world_layer (VStr "LevelID")
         (VStr "1-3") None None None None [] fresh)
  = Returned submitted /\
  kinds (snd (export_tiles never_done "/tmp" 3 world_layer (VStr "1-3")
                None None None None None None (Some (VBool true)) [] fresh))
  = [Get].
Proof.
  destruct (asynchronous_call_is_one_get_at_most never_done "/tmp"
              world_layer (VStr "LevelID") (VStr "1-3") None None None []
              None None None None (Some (VBool true)) 3)
    as (He & _ & Hx).
  - reflexivity.
  - reflexivity.
  - split; [exact (f_equal fst (He eq_refl))|].
    exact (f_equal (fun run => kinds (snd run)) Hx).
Defined.

Lemma estimate_is_guarded_export_is_not_witness :
  estimate_of locked_layer never_done 3 = (Returned VNone, fresh) /\
  exists o w' evs,
    export_of locked_layer never_done 3 = (o, w') /\
    kinds w' = Get :: map kind_of evs.
Proof.
  destruct (estimate_is_guarded_export_is_not never_done "/tmp" locked_layer
              (VStr "LevelID") (VStr "1-3") None None None [] None None None
              (Some (VBool false)) None 3 fresh)
    as (He & o & w' & evs & Hx & Htrace).
  - reflexivity.
  - split; [exact He|]. exists o, w', evs. split; [exact Hx|].
    unfold kinds. rewrite Htrace. reflexivity.
Defined.

End SampleRuns.

(** * Further properties *)

(** ** [rot13] and [chunks] *)

Lemma rot13_shift_fixed c : rot13_shift c = c <-> ~ is_lower c /\ ~ is_upper c.
Proof.
  destruct ord_lit_values as (Ha & Hm & Hz & HA & HM & HZ).
  unfold is_lower, is_upper, rot13_shift. rewrite Ha, Hm, Hz, HA, HM, HZ.
  split_tests; lia.
Qed.

(** X1. [rot13] works character by character: the cipher of a
    concatenation is the concatenation of the ciphers. *)
Theorem rot13_app (s1 s2 : pystr) :
  valid_str s1 -> valid_str s2 ->
  exists r1 r2,
    rot13 s1 = Some r1 /\ rot13 s2 = Some r2 /\
    rot13 (s1 ++ s2) = Some (r1 ++ r2).
Proof.
  intros H1 H2. exists (map rot13_shift s1), (map rot13_shift s2).
  rewrite !rot13_map by (try done; by apply Forall_app).
  by rewrite map_app.
Qed.

(** X2. [rot13] changes every ASCII letter: the strings it leaves as they
    are are exactly those without an ASCII letter. *)
Theorem rot13_fixed_strings (s : pystr) :
  valid_str s ->
  (rot13 s = Some s <->
   Forall (fun c => ~ is_lower c /\ ~ is_upper c) s).
Proof.
  intros Hs. rewrite rot13_map by done. clear Hs. split.
  - intros [= Hmap]. induction s as [|c s IH]; [constructor|].
    injection Hmap as Hc Hmap. constructor; [by apply rot13_shift_fixed|auto].
  - intros Hall. f_equal. induction Hall as [|c s Hc _ IH]; [done|].
    simpl. f_equal; [by apply rot13_shift_fixed|done].
Qed.

Section ChunksMore.
Context {A : Type}.
Implicit Types (l : list A).

(** For a positive [n] the chunks are the windows of width [n] that start
    at the multiples of [n]. *)
Lemma chunks_windows l (n : Z) :
  0 < n ->
  chunks l n
  = Some (map (fun k : nat => take (Z.to_nat n) (drop (k * Z.to_nat n) l))
              (seq 0 (Z.to_nat (range_len 0 (Z.of_nat (length l)) n)))).
Proof.
  intros Hn. unfold chunks, py_range.
  destruct (Z.eqb_spec n 0) as [->|_]; [lia|].
  set (len := Z.of_nat (length l)).
  destruct (range_len_chunks len n ltac:(lia) Hn) as (_ & Hlast & _).
  f_equal. rewrite map_map. apply map_ext_in. intros k [_ Hk]%in_seq.
  assert (Hkn : 0 + Z.of_nat k * n = Z.of_nat (k * Z.to_nat n))
    by (rewrite Nat2Z.inj_mul, Z2Nat.id; lia).
  rewrite Hkn, slice_window, Nat2Z.id; [done| |done].
  rewrite <- Hkn. specialize (Hlast ltac:(lia)). subst len. nia.
Qed.

Lemma range_len_ceiling (len n : Z) :
  0 <= len -> 0 < n -> range_len 0 len n = (len + n - 1) / n.
Proof.
  intros Hlen Hn. unfold range_len.
  destruct (Z.ltb_spec 0 n); [|lia].
  destruct (Z.ltb_spec 0 len).
  - replace (len + n - 1) with (len - 1 + 1 * n) by lia.
    by rewrite Z.div_add, Z.sub_0_r by lia.
  - replace len with 0 by lia. symmetry. apply Z.div_small. lia.
Qed.

(** X3. Without a positive chunk size nothing comes out: [chunks(l, 0)]
    raises [ValueError] (from [range]), and a negative [n] yields no chunk
    at all, whatever [l] holds. *)
Theorem chunks_without_positive_size l (n : Z) :
  n <= 0 -> chunks l n = if n =? 0 then None else Some [].
Proof.
  intros Hn. unfold chunks, py_range, range_len.
  destruct (Z.eqb_spec n 0) as [->|Hne]; [done|].
  destruct (Z.ltb_spec 0 n); [lia|].
  by destruct (Z.ltb_spec (Z.of_nat (length l)) 0); [lia|].
Qed.

(** X4. For [n > 0], [chunks(l, n)] yields [ceil(len(l) / n)] chunks, and
    element [k] of chunk [i] is element [i * n + k] of [l]. *)
Theorem chunks_count_and_elements l (n : Z) :
  0 < n ->
  exists cs,
    chunks l n = Some cs /\
    Z.of_nat (length cs) = (Z.of_nat (length l) + n - 1) / n /\
    forall i k : nat, (k < Z.to_nat n)%nat ->
      cs !! i ≫= (.!! k) = l !! (i * Z.to_nat n + k)%nat.
Proof.
  intros Hn. rewrite chunks_windows by done. eexists. split; [done|].
  set (len := Z.of_nat (length l)).
  destruct (range_len_chunks len n ltac:(lia) Hn) as (Hcover & _ & Hpos).
  split.
  - rewrite length_map, length_seq, Z2Nat.id by done.
    apply range_len_ceiling; lia.
  - intros i k Hk.
    change (map ?f ?x) with (f <$> x). rewrite list_lookup_fmap.
    destruct (seq 0 (Z.to_nat (range_len 0 len n)) !! i) as [j|] eqn:Hj.
    + apply lookup_seq in Hj as [-> _]. simpl.
      by rewrite lookup_take_lt, lookup_drop by done.
    + simpl. symmetry. apply lookup_ge_None.
      apply lookup_ge_None in Hj. rewrite length_seq in Hj.
      subst len. nia.
Qed.

End ChunksMore.

Lemma rot13_app_witness :
  rot13 ([72; 105] ++ [33; 122]) = Some ([85; 118] ++ [33; 109]).
Proof.
  destruct (rot13_app [72; 105] [33; 122]) as (r1 & r2 & H1 & H2 & H12).
  - repeat constructor; unfold max_code_point; lia.
  - repeat constructor; unfold max_code_point; lia.
  - rewrite H12. vm_compute in H1, H2. congruence.
Defined.

Lemma rot13_fixed_strings_witness : rot13 [49; 50; 32; 8364] = Some [49; 50; 32; 8364].
Proof.
  apply rot13_fixed_strings.
  - repeat constructor; unfold max_code_point; lia.
  - repeat constructor; unfold is_lower, is_upper; vm_compute; intros [H1 H2];
      try (by apply H1); by apply H2.
Defined.

Lemma chunks_without_positive_size_witness :
  chunks [1; 2; 3] (-2) = Some [] /\ chunks [1; 2; 3] 0 = None.
Proof.
  split.
  - apply (chunks_without_positive_size [1; 2; 3] (-2)). lia.
  - apply (chunks_without_positive_size [1; 2; 3] 0). lia.
Defined.

Lemma chunks_count_and_elements_witness :
  exists cs, chunks [10; 20; 30; 40; 50; 60; 70] 3 = Some cs /\
             length cs = 3%nat /\ cs !! 2%nat ≫= (.!! 0%nat) = Some 70.
Proof.
  destruct (chunks_count_and_elements [10; 20; 30; 40; 50; 60; 70] 3)
    as (cs & Hcs & Hlen & Helem); [lia|].
  exists cs. split; [exact Hcs|]. split.
  - apply Nat2Z.inj. rewrite Hlen. reflexivity.
  - rewrite (Helem 2%nat 0%nat) by (vm_compute; lia). reflexivity.
Defined.

(** ** [_to_utf8] *)

Import Utf8.

(** Induction on a value with the hypothesis available for every element
    of a list and every value of a dict. *)
Lemma pyval_nested_ind (P : pyval -> Prop) :
  P VNone ->
  (forall b, P (VBool b)) ->
  (forall z, P (VInt z)) ->
  (forall s, P (VStr s)) ->
  (forall l, Forall P l -> P (VList l)) ->
  (forall d : dict, Forall (fun kv => P kv.2) d -> P (VDict d)) ->
  (forall attrs : dict, P (VObj attrs)) ->
  forall v, P v.
Proof.
  intros HN HB HZ HS HL HD HO. fix IH 1.
  intros [|b|z|s|l|d|attrs];
    [apply HN|apply HB|apply HZ|apply HS|apply HL|apply HD|apply HO].
  - revert l. fix IHl 1. intros [|x l]; constructor; [apply IH|apply IHl].
  - revert d. fix IHd 1. intros [|[k x] d]; constructor; [apply IH|apply IHd].
Qed.

Lemma to_utf8_not_none v : is_none (_to_utf8 v) = is_none v.
Proof. by destruct v. Qed.

Lemma to_utf8_none_free v : none_free (_to_utf8 v) = true.
Proof.
  induction v as [| | | |l IH|d IH|attrs] using pyval_nested_ind; try done.
  - simpl. induction IH as [|x l Hx _ IHl]; simpl; [done|].
    by rewrite Hx, IHl.
  - simpl. induction IH as [|[k x] d Hx _ IHd]; [done|].
    simpl in Hx. cbn [omap list_omap].
    destruct (is_none x) eqn:Hnone; [done|]. cbn [forallb].
    by rewrite to_utf8_not_none, Hnone, Hx, IHd.
Qed.

Lemma to_utf8_of_none_free v : none_free v = true -> _to_utf8 v = v.
Proof.
  induction v as [| | | |l IH|d IH|attrs] using pyval_nested_ind; try done.
  - simpl. intros Hall. f_equal.
    induction IH as [|x l Hx _ IHl]; simpl in *; [done|].
    apply andb_prop in Hall as [H1 H2]. by rewrite Hx, IHl.
  - simpl. intros Hall. f_equal.
    induction IH as [|[k x] d Hx _ IHd]; [done|].
    simpl in Hx. cbn [forallb] in Hall. cbn [omap list_omap].
    apply andb_prop in Hall as [[H1 H2]%andb_prop H3].
    apply negb_true_iff in H1. by rewrite H1, Hx, IHd.
Qed.

(** X5. [_to_utf8] leaves no [None] behind as a value of a dict, at any
    depth it reaches through dicts and lists, and the values it returns
    unchanged are exactly those that had none to begin with. So applying
    it twice is the same as applying it once. *)
Theorem to_utf8_strips_none_values (data : pyval) :
  none_free (_to_utf8 data) = true /\
  (_to_utf8 data = data <-> none_free data = true) /\
  _to_utf8 (_to_utf8 data) = _to_utf8 data.
Proof.
  split; [apply to_utf8_none_free|]. split.
  - split; [|apply to_utf8_of_none_free].
    intros <-. apply to_utf8_none_free.
  - apply to_utf8_of_none_free, to_utf8_none_free.
Qed.

Lemma to_utf8_items_absent (d : dict) k :
  dict_lookup d k = None ->
  dict_lookup (omap (fun kv : string * pyval =>
                       let (key, value) := kv in
                       if is_none value then None
                       else Some (key, _to_utf8 value)) d) k = None.
Proof.
  induction d as [|[k' v] d IH]; simpl; [done|].
  destruct (String.eqb k' k) eqn:Hk; [done|]. intros Hd.
  destruct (is_none v); simpl; [auto|]. rewrite Hk. auto.
Qed.

Lemma dict_lookup_not_key (d : dict) k :
  k ∉ dict_keys d -> dict_lookup d k = None.
Proof.
  induction d as [|[k' v] d IH]; simpl; [done|].
  intros Hk. apply not_elem_of_cons in Hk as [Hne Hk].
  destruct (String.eqb_spec k' k); [congruence|auto].
Qed.

(** X6. What subscripting finds after [_to_utf8]: a key whose value was
    [None] is gone, so [d[k]] raises [KeyError] where it gave [None]
    before; every other key holds the converted value; no key is added. *)
Theorem to_utf8_subscript (d : dict) (k : string) :
  NoDup (dict_keys d) ->
  subscript (_to_utf8 (VDict d)) k
  = match dict_lookup d k with
    | Some v => if is_none v then Err (KeyError k) else Ok (_to_utf8 v)
    | None => Err (KeyError k)
    end.
Proof.
  unfold subscript. simpl. induction d as [|[k' v] d IH]; simpl; [done|].
  intros [Hk Hd]%NoDup_cons.
  destruct (String.eqb_spec k' k) as [->|Hne].
  - destruct (is_none v); simpl.
    + by rewrite to_utf8_items_absent by by apply dict_lookup_not_key.
    + by rewrite String.eqb_refl.
  - destruct (is_none v); simpl; [auto|].
    destruct (String.eqb_spec k' k); [done|auto].
Qed.

Lemma to_utf8_subscript_witness :
  subscript (_to_utf8 (VDict [("a"%string, VNone); ("b"%string, VInt 1)]))
            "a"
  = Err (KeyError "a").
Proof.
  rewrite to_utf8_subscript; [reflexivity|].
  apply (bool_decide_unpack _). vm_compute. exact I.
Defined.

(** ** More on the two tile-export methods *)

Import Shapes.

Section LoopShape.
Variable server : nat -> pyval.
Variables (self : layer) (path : pypath).

Lemma poll_loop_kinds fuel : forall jr st w,
  let run := poll_loop server fuel self path status_params jr st w in
  exists n (printed : bool),
    (n <= fuel)%nat /\
    kinds (snd run)
    = kinds w ++ concat (replicate n [Sleep 5; Post])
      ++ (if printed then [Print] else []) /\
    (printed = true -> exists e, fst run = Raised e).
Proof.
  assert (Hstay : forall w, kinds w = kinds w ++ concat (replicate 0 [Sleep 5; Post]) ++ [])
    by (intros w; simpl; by rewrite app_nil_r).
  assert (Hround : forall w,
            kinds (World (S (answered w)) (trace w ++ one_round self path))
            = kinds w ++ [Sleep 5; Post])
    by (intros w; unfold kinds; simpl; by rewrite map_app).
  induction fuel as [|fuel IH]; intros jr st w; cbv zeta;
    destruct (eq_str st "esriJobSucceeded") eqn:Hst.
  - rewrite poll_loop_done by done. exists 0%nat, false.
    split; [lia|split; [apply Hstay|done]].
  - rewrite poll_loop_out_of_fuel by done. exists 0%nat, false.
    split; [lia|split; [apply Hstay|done]].
  - rewrite poll_loop_done by done. exists 0%nat, false.
    split; [lia|split; [apply Hstay|done]].
  - rewrite poll_loop_turn by done. cbv zeta.
    destruct (get (server (answered w)) "status") as [st'|e].
    2:{ exists 1%nat, false. split; [lia|]. simpl snd. by rewrite Hround. }
    destruct (in_strs st' failure_statuses).
    + destruct (subscript (server (answered w)) "messages") as [m|e].
      * exists 1%nat, true. split; [lia|]. simpl snd. split; [|simpl; eauto].
        unfold kinds at 1. simpl trace. rewrite !map_app. simpl.
        by rewrite <- app_assoc.
      * exists 1%nat, false. split; [lia|]. simpl snd. by rewrite Hround.
    + destruct (IH (server (answered w)) st'
                  (World (S (answered w)) (trace w ++ one_round self path)))
        as (n & printed & Hn & Hk & Hp).
      exists (S n), printed. split; [lia|]. split; [|done]. rewrite Hk, Hround.
      simpl. by rewrite <- !app_assoc.
Qed.

End LoopShape.

Section ShapeOfCalls.
Variable server : nat -> pyval.
Variable tempdir : string.

(** The synchronous branch, spelled out on the first two answers. *)
Lemma submit_and_wait_unfold fuel self url params :
  submit_and_wait server fuel self url params fresh
  = let submitted := EGet (PathVal (VStr url)) params (token_kw self) in
    match subscript (server 0%nat) "jobId" with
    | Err e => (Raised e, World 1 [submitted])
    | Ok j =>
        let entered :=
          World 2 [submitted;
                   EPost (PathJob url j) status_params (token_kw self)] in
        match contains "status" (server 1%nat) with
        | Err e => (Raised e, entered)
        | Ok false => (Raised (Exception "No job results."), entered)
        | Ok true =>
            match get (server 1%nat) "status" with
            | Err e => (Raised e, entered)
            | Ok st =>
                poll_loop server fuel self (PathJob url j) status_params
                  (server 1%nat) st entered
            end
        end
    end.
Proof.
  unfold submit_and_wait, con_get, con_post, bind, request, fresh. simpl.
  destruct (subscript (server 0%nat) "jobId") as [j|e]; simpl; [|done].
  destruct (contains "status" (server 1%nat)) as [[|]|e]; simpl; [|done..].
  by destruct (get (server 1%nat) "status").
Qed.

Lemma submit_and_wait_kinds fuel self url params :
  let run := submit_and_wait server fuel self url params fresh in
  (kinds (snd run) = [Get] /\ exists e, fst run = Raised e) \/
  exists n printed,
    (n <= fuel)%nat /\ kinds (snd run) = wait_kinds n printed /\
    (printed = true -> exists e, fst run = Raised e).
Proof.
  rewrite submit_and_wait_unfold. cbv zeta.
  destruct (subscript (server 0%nat) "jobId") as [j|e]; [|left; eauto].
  right.
  destruct (contains "status" (server 1%nat)) as [[|]|e];
    [|exists 0%nat, false; split; [lia|done]..].
  destruct (get (server 1%nat) "status") as [st|e];
    [|exists 0%nat, false; split; [lia|done]].
  match goal with
  | |- context [poll_loop server fuel self ?p status_params ?jr st ?w] =>
      destruct (poll_loop_kinds server self p fuel jr st w)
        as (n & printed & Hn & Hk & Hp)
  end.
  exists n, printed. split; [done|]. split; [by rewrite Hk|done].
Qed.

Lemma fetch_results_kinds self tile_package allResults w :
  exists gets,
    (gets <= 2)%nat /\
    kinds (snd (fetch_results server tempdir self tile_package allResults w))
    = kinds w ++ replicate gets Get.
Proof.
  assert (H0 : kinds w = kinds w ++ replicate 0 Get)
    by (simpl; by rewrite app_nil_r).
  assert (H1 : forall e, kind_of e = Get ->
            kinds (World (S (answered w)) (trace w ++ [e]))
            = kinds w ++ replicate 1 Get)
    by (intros e He; unfold kinds; simpl; by rewrite map_app; simpl; rewrite He).
  assert (H2 : forall e1 e2 a, kind_of e1 = Get -> kind_of e2 = Get ->
            kinds (World a ((trace w ++ [e1]) ++ [e2]))
            = kinds w ++ replicate 2 Get).
  { intros e1 e2 a He1 He2. unfold kinds. simpl.
    rewrite !map_app. simpl. by rewrite He1, He2, <- app_assoc. }
  unfold fetch_results, download_files, bind, con_get, request, lift, ret, raise.
  repeat (case_match; simplify_eq/=);
    first [ by exists 0%nat; split; [lia|apply H0]
          | by exists 1%nat; split; [lia|apply H1]
          | by exists 2%nat; split; [lia|apply H2] ].
Qed.

Lemma bind_raised_or_running {A B : Type} (m : M A) (k : A -> M B) w :
  (forall a, fst (m w) <> Returned a) -> snd (bind m k w) = snd (m w).
Proof.
  unfold bind. destruct (m w) as [[a|e|] w1]; [|done..].
  intros H. by destruct (H a).
Qed.

Lemma bind_lift_snd {A B : Type} (m : M A) (r : A -> result B) w :
  snd (bind m (fun a => lift (r a)) w) = snd (m w).
Proof.
  unfold bind. destruct (m w) as [[a|e|] w1]; [|done..].
  by destruct (r a).
Qed.

End ShapeOfCalls.

Section JobsMore.
Variable server : nat -> pyval.
Variable tempdir : string.
Variable self : layer.
Variables (export_by levels : pyval).
Variables (tile_package export_extent area_of_interest : option pyval).
Variable kwargs : dict.
Variables (export_by_x optimize_for_size compression : option pyval).
Implicit Types (asynchronous : option pyval) (n k fuel : nat) (w : world).

Local Abbreviation estimate_url := (_url self +:+ "/estimateExportTilesSize").
Local Abbreviation export_url := (_url self +:+ "/exportTiles").

Local Abbreviation estimate_request :=
  (estimate_params export_by levels
     (default (VBool false) tile_package)
     (default (VStr "DEFAULTEXTENT") export_extent)
     (default VNone area_of_interest) kwargs).

Local Abbreviation export_request :=
  (export_params levels
     (default (VStr "LevelID") export_by_x)
     (default (VBool false) tile_package)
     (default (VStr "DEFAULT") export_extent)
     (default (VBool true) optimize_for_size)
     (default (VInt 75) compression)
     (default VNone area_of_interest) kwargs).

Local Abbreviation estimate asynchronous fuel :=
  (estimate_export_tiles_size server fuel self export_by levels tile_package
     export_extent area_of_interest asynchronous kwargs).

Local Abbreviation export asynchronous fuel :=
  (export_tiles server tempdir fuel self levels export_by_x tile_package
     export_extent optimize_for_size compression area_of_interest
     asynchronous kwargs).

Local Abbreviation sync dflt asynchronous :=
  (eq_bool (default (VBool dflt) asynchronous) true = false).

(** X7. Whatever the server answers and however a call is made, the
    effects of the two methods come in one fixed order. An estimate does
    nothing, or one GET, or: the GET, one status POST, then turns of
    "sleep 5 seconds, POST", and at the very end at most one print. An
    export is one GET, or the same pattern followed by at most two GETs of
    its download step. Messages are printed only by a call that raises, and
    no download follows a print. So neither method ever sleeps for anything
    but 5 seconds, asks twice for the status without sleeping in between,
    or sleeps without asking again. *)
Theorem calls_leave_regular_traces asynchronous asynchronous_x fuel :
  let run_e := estimate asynchronous fuel fresh in
  let run_x := export asynchronous_x fuel fresh in
  (kinds (snd run_e) = [] \/ kinds (snd run_e) = [Get] \/
   exists n printed,
     (n <= fuel)%nat /\ kinds (snd run_e) = wait_kinds n printed /\
     (printed = true -> exists e, fst run_e = Raised e)) /\
  (kinds (snd run_x) = [Get] \/
   exists n printed gets,
     (n <= fuel)%nat /\ (gets <= 2)%nat /\
     kinds (snd run_x) = wait_kinds n printed ++ replicate gets Get /\
     (printed = true -> gets = 0%nat /\ exists e, fst run_x = Raised e)).
Proof.
  cbv zeta. split.
  - destruct (subscript (properties self) "exportTilesAllowed")
      as [flag|e] eqn:Hflag.
    2:{ left. unfold estimate_export_tiles_size, bind. by rewrite Hflag. }
    destruct (eq_bool flag false) eqn:Hfalse.
    { left. by rewrite (estimate_blocked _ _ _ _ _ _ _ _ _ _ _ flag). }
    assert (Hallowed : export_allowed self = true)
      by (unfold export_allowed; by rewrite Hflag, Hfalse).
    destruct (eq_bool (default (VBool true) asynchronous) true) eqn:Hasync.
    { right; left. by rewrite estimate_asynchronous. }
    rewrite estimate_synchronous by done. rewrite bind_lift_snd.
    destruct (submit_and_wait_kinds server fuel self estimate_url
                estimate_request) as [[Hk _]|(n & printed & Hn & Hk & Hp)].
    + right; by left.
    + right; right. exists n, printed. split; [done|]. split; [done|].
      intros Hpr. destruct (Hp Hpr) as [e He]. exists e. unfold bind.
      destruct (submit_and_wait _ _ _ _ _ _) as [o w1]. simpl in He.
      by subst o.
  - destruct (eq_bool (default (VBool false) asynchronous_x) true) eqn:Hasync.
    { left. by rewrite export_asynchronous. }
    rewrite export_synchronous by done.
    destruct (submit_and_wait_kinds server fuel self export_url
                export_request) as [[Hk [e He]]|(n & printed & Hn & Hk & Hp)].
    + left. rewrite bind_raised_or_running; [done|].
      intros a. rewrite He. done.
    + right. unfold bind.
      destruct (submit_and_wait _ _ _ _ _ _) as [[jr|e|] w1] eqn:Hrun;
        simpl in Hk, Hp.
      * assert (printed = false) as ->.
        { destruct printed; [|done]. by destruct (Hp eq_refl). }
        destruct (subscript jr "results") as [allResults|e]; simpl.
        -- destruct (fetch_results_kinds server tempdir self
                       (default (VBool false) tile_package) allResults w1)
             as (gets & Hgets & Hfk).
           exists n, false, gets. rewrite Hfk, Hk.
           split; [done|]. split; [done|]. split; [done|]. intros [=].
        -- exists n, false, 0%nat. simpl. rewrite app_nil_r.
           split; [done|]. split; [lia|]. split; [done|]. intros [=].
      * exists n, printed, 0%nat. simpl. rewrite app_nil_r.
        split; [done|]. split; [lia|]. split; [done|]. eauto.
      * exists n, printed, 0%nat. simpl. rewrite app_nil_r.
        split; [done|]. split; [lia|]. split; [done|].
        intros Hpr. by destruct (Hp Hpr).
Qed.

(** X8. A job the server did not accept ends a synchronous call at once:
    when the answer to the submitting GET cannot be subscripted with
    ['jobId'] (for a JSON object without that entry, a [KeyError]), that
    error is raised after the one GET, before any status request. *)
Theorem unaccepted_job_raises_after_one_get
    asynchronous asynchronous_x fuel (e : exn) :
  export_allowed self = true ->
  sync true asynchronous ->
  sync false asynchronous_x ->
  subscript (server 0%nat) "jobId" = Err e ->
  estimate asynchronous fuel fresh
  = (Raised e,
     World 1 [EGet (PathVal (VStr estimate_url)) estimate_request
                   (token_kw self)])
  /\
  export asynchronous_x fuel fresh
  = (Raised e,
     World 1 [EGet (PathVal (VStr export_url)) export_request
                   (token_kw self)]).
Proof.
  intros Hallowed Hsync Hsync_x Hjob.
  rewrite estimate_synchronous, export_synchronous by done.
  unfold bind. rewrite !submit_and_wait_unfold. cbv zeta. by rewrite Hjob.
Qed.

(** X9. A failed job whose status document has no ['messages'] entry is
    not reported as a failed job: the lookup of the messages raises first
    ([KeyError] for a JSON object without the entry), nothing is printed,
    and the exception that names the status is never built. *)
Theorem failure_without_messages_raises_lookup_error
    asynchronous asynchronous_x n k (s : string) (e : exn) :
  export_allowed self = true ->
  sync true asynchronous ->
  sync false asynchronous_x ->
  waits_for server n -> (1 <= n)%nat ->
  get (server (1 + n)%nat) "status" = Ok (VStr s) ->
  In s failure_statuses ->
  subscript (server (1 + n)%nat) "messages" = Err e ->
  estimate asynchronous (n + k) fresh
  = (Raised e,
     World (2 + n)
           (sync_trace self estimate_url estimate_request (server 0%nat) n))
  /\
  export asynchronous_x (n + k) fresh
  = (Raised e,
     World (2 + n)
           (sync_trace self export_url export_request (server 0%nat) n)).
Proof.
  intros Hallowed Hsync Hsync_x Hwaits Hn Hget Hin Hmsg.
  rewrite estimate_synchronous, export_synchronous by done.
  unfold bind.
  rewrite !(submit_and_wait_fails server self _ _ n k s) by done.
  by rewrite Hmsg.
Qed.

(** X10. A job that succeeded but whose status document has no
    ['results'] entry makes both methods raise the error of that lookup
    once the wait is over, with no further request. *)
Theorem success_without_results_raises
    asynchronous asynchronous_x n k (e : exn) :
  export_allowed self = true ->
  sync true asynchronous ->
  sync false asynchronous_x ->
  waits_for server n ->
  succeeded (server (1 + n)%nat) = true ->
  subscript (server (1 + n)%nat) "results" = Err e ->
  estimate asynchronous (n + k) fresh
  = (Raised e,
     World (2 + n)
           (sync_trace self estimate_url estimate_request (server 0%nat) n))
  /\
  export asynchronous_x (n + k) fresh
  = (Raised e,
     World (2 + n)
           (sync_trace self export_url export_request (server 0%nat) n)).
Proof.
  intros Hallowed Hsync Hsync_x Hwaits Hsucc Hres.
  rewrite estimate_synchronous, export_synchronous by done.
  unfold bind. rewrite !submit_and_wait_succeeds by done.
  cbv beta iota. by rewrite Hres.
Qed.

(** X11. [export_tiles] looks at the first entry of the job's results
    and at nothing else: unless that entry is ['out_service_url'] it
    returns [None] without any further request, whatever the other
    entries are, an ['out_service_url'] among them included. *)
Theorem export_reads_first_result_only
    asynchronous_x n k (results : dict) :
  sync false asynchronous_x ->
  waits_for server n ->
  succeeded (server (1 + n)%nat) = true ->
  subscript (server (1 + n)%nat) "results" = Ok (VDict results) ->
  head (dict_keys results) <> Some "out_service_url"%string ->
  export asynchronous_x (n + k) fresh
  = (Returned VNone,
     World (2 + n)
           (sync_trace self export_url export_request (server 0%nat) n)).
Proof.
  intros Hsync_x Hwaits Hsucc Hres Hfirst.
  rewrite export_synchronous by done.
  unfold bind. rewrite submit_and_wait_succeeds by done.
  cbv beta iota. rewrite Hres. simpl.
  destruct results as [|[key v] rest]; [done|]. simpl in *.
  unfold fetch_results, bind. simpl.
  destruct (String.eqb_spec key "out_service_url"); [congruence|done].
Qed.

(** X12. Asking [export_tiles] for a tile package never brings a file
    back. When the resource the job points to lists at least one file with
    a name and a URL, the first file is requested and the call then ends
    with [TypeError], because [files.append] is given a keyword argument;
    the files that follow are never requested. *)
Theorem tile_package_download_raises
    asynchronous_x n k (v value fs file name dlURL : pyval)
    (rest : dict) (more : list pyval) :
  sync false asynchronous_x ->
  eq_bool (default (VBool false) tile_package) true = true ->
  waits_for server n ->
  succeeded (server (1 + n)%nat) = true ->
  subscript (server (1 + n)%nat) "results"
  = Ok (VDict (("out_service_url"%string, v) :: rest)) ->
  getattr v "value" = Ok value ->
  subscript (server (2 + n)%nat) "files" = Ok fs ->
  iterate fs = Ok (file :: more) ->
  subscript file "name" = Ok name ->
  subscript file "url" = Ok dlURL ->
  export asynchronous_x (n + k) fresh
  = (Raised TypeError,
     World (4 + n)
           (sync_trace self export_url export_request (server 0%nat) n
            ++ [EGet (PathVal value) status_params (token_kw self);
                EGet (PathVal dlURL) status_params
                     [("out_folder"%string, VStr tempdir);
                      ("file_name"%string, name)]])).
Proof.
  intros Hsync_x Hpackage Hwaits Hsucc Hres Hvalue Hfiles Hiter Hname Hurl.
  rewrite export_synchronous by done.
  unfold bind. rewrite submit_and_wait_succeeds by done.
  cbv beta iota. rewrite Hres. simpl.
  unfold fetch_results, bind, con_get, request. simpl.
  simpl in Hfiles.
  rewrite Hvalue. simpl. rewrite Hpackage, Hfiles. simpl. rewrite Hiter. simpl.
  rewrite Hname. simpl. rewrite Hurl.
  unfold bind, con_get, request, ret, raise. simpl.
  by rewrite <- app_assoc.
Qed.

(** X13. The only values a synchronous [export_tiles] can return when a
    tile package is asked for are [None] and the empty list. *)
Theorem tile_package_export_returns_no_file
    asynchronous_x fuel (result : pyval) :
  sync false asynchronous_x ->
  eq_bool (default (VBool false) tile_package) true = true ->
  fst (export asynchronous_x fuel fresh) = Returned result ->
  result = VNone \/ result = VList [].
Proof.
  intros Hsync_x Hpackage. rewrite export_synchronous by done.
  destruct (bind _ _ fresh) as [o w'] eqn:Hrun. simpl. intros ->.
  apply bind_returned in Hrun as (jr & w1 & _ & Hrun).
  apply bind_returned in Hrun as (allResults & w2 & _ & Hrun).
  revert Hrun.
  unfold fetch_results, download_files, bind, con_get, request, lift, ret, raise.
  rewrite Hpackage.
  repeat (case_match; simplify_eq/=); intros; simplify_eq; auto.
Qed.

End JobsMore.

Section MoreSampleRuns.
Import Examples MoreExamples.

Local Abbreviation estimate_of layer server fuel :=
  (estimate_export_tiles_size server fuel layer (VStr "LevelID") (VStr "1-3")
     None None None (Some (VBool false)) [] fresh).

Local Abbreviation export_of layer server fuel :=
  (export_tiles server "/tmp" fuel layer (VStr "1-3")
     None None None None None None None [] fresh).

Local Abbreviation package_of layer server fuel :=
  (export_tiles server "/tmp" fuel layer (VStr "1-3")
     None (Some (VBool true)) None None None None None [] fresh).

Lemma unaccepted_job_raises_after_one_get_witness :
  fst (estimate_of world_layer refused 3) = Raised (KeyError "jobId") /\
  kinds (snd (export_of world_layer refused 3)) = [Get].
Proof.
  destruct (unaccepted_job_raises_after_one_get refused "/tmp" world_layer
              (VStr "LevelID") (VStr "1-3") None None None [] None None None
              (Some (VBool false)) None 3 (KeyError "jobId"))
    as [He Hx].
  - reflexivity.
  - reflexivity.
  - reflexivity.
  - reflexivity.
  - split; [exact (f_equal fst He)|].
    exact (f_equal (fun run => kinds (snd run)) Hx).
Defined.

Lemma failure_without_messages_raises_lookup_error_witness :
  fst (estimate_of world_layer fails_silently 1)
  = Raised (KeyError "messages") /\
  kinds (snd (export_of world_layer fails_silently 1))
  = [Get; Post; Sleep 5; Post].
Proof.
  destruct (failure_without_messages_raises_lookup_error fails_silently "/tmp"
              world_layer (VStr "LevelID") (VStr "1-3") None None None []
              None None None (Some (VBool false)) None 1 0 "esriJobFailed"
              (KeyError "messages"))
    as [He Hx].
  - reflexivity.
  - reflexivity.
  - reflexivity.
  - repeat split. intros [|i] Hi; [reflexivity|lia].
  - lia.
  - reflexivity.
  - simpl. tauto.
  - reflexivity.
  - split; [exact (f_equal fst He)|].
    exact (f_equal (fun run => kinds (snd run)) Hx).
Defined.

Lemma success_without_results_raises_witness :
  fst (estimate_of world_layer done_without_results 1)
  = Raised (KeyError "results") /\
  fst (export_of world_layer done_without_results 1)
  = Raised (KeyError "results").
Proof.
  destruct (success_without_results_raises done_without_results "/tmp"
              world_layer (VStr "LevelID") (VStr "1-3") None None None []
              None None None (Some (VBool false)) None 1 0
              (KeyError "results"))
    as [He Hx].
  - reflexivity.
  - reflexivity.
  - reflexivity.
  - repeat split. intros [|i] Hi; [reflexivity|lia].
  - reflexivity.
  - reflexivity.
  - split; [exact (f_equal fst He)|exact (f_equal fst Hx)].
Defined.

Lemma export_reads_first_result_only_witness :
  fst (export_of world_layer count_first 0) = Returned VNone /\
  kinds (snd (export_of world_layer count_first 0)) = [Get; Post].
Proof.
  pose proof (export_reads_first_result_only count_first "/tmp" world_layer
                (VStr "1-3") None None None [] None None None None 0 0
                count_first_results) as Hx.
  assert (Hwaits : waits_for count_first 0)
    by (repeat split; intros i Hi; lia).
  specialize (Hx eq_refl Hwaits eq_refl eq_refl ltac:(discriminate)).
  split; [exact (f_equal fst Hx)|].
  exact (f_equal (fun run => kinds (snd run)) Hx).
Defined.

Lemma tile_package_download_raises_witness :
  fst (package_of world_layer
         (package_done [package_file "a.tpk"; package_file "b.tpk"]) 0)
  = Raised TypeError /\
  kinds (snd (package_of world_layer
                (package_done [package_file "a.tpk"; package_file "b.tpk"]) 0))
  = [Get; Post; Get; Get].
Proof.
  pose proof (tile_package_download_raises
                (package_done [package_file "a.tpk"; package_file "b.tpk"])
                "/tmp" world_layer (VStr "1-3") (Some (VBool true)) None None
                [] None None None None 0 0
                (VObj [("value"%string,
                        VStr "https://maps.example.com/jobs/j42/results/out_service_url")])
                (VStr "https://maps.example.com/jobs/j42/results/out_service_url")
                (VList [package_file "a.tpk"; package_file "b.tpk"])
                (package_file "a.tpk") (VStr "a.tpk")
                (VStr "https://maps.example.com/output/a.tpk")
                [] [package_file "b.tpk"]) as Hx.
  assert (Hwaits :
            waits_for
              (package_done [package_file "a.tpk"; package_file "b.tpk"]) 0)
    by (repeat split; intros i Hi; lia).
  specialize (Hx eq_refl eq_refl Hwaits eq_refl eq_refl eq_refl eq_refl
                 eq_refl eq_refl eq_refl).
  split; [exact (f_equal fst Hx)|].
  exact (f_equal (fun run => kinds (snd run)) Hx).
Defined.

Lemma tile_package_export_returns_no_file_witness :
  fst (package_of world_layer (package_done []) 0) = Returned (VList []).
Proof.
  destruct (tile_package_export_returns_no_file (package_done []) "/tmp"
              world_layer (VStr "1-3") (Some (VBool true)) None None []
              None None None None 0 (VList [])) as [H|H].
  - reflexivity.
  - reflexivity.
  - vm_compute. reflexivity.
  - discriminate H.
  - vm_compute. reflexivity.
Defined.

End MoreSampleRuns.

(** ** Conditional parameters *)

Import PyMore.

Section SetIf.
Implicit Types (params : gmap string pyval) (k : string) (v : pyval).

Lemma lookup_set_if_eq c k v params :
  set_if c k v params !! k = if c then Some v else params !! k.
Proof. unfold set_if. destruct c; [apply lookup_insert_eq|done]. Qed.

Lemma lookup_set_if_ne c k k' v params :
  k <> k' -> set_if c k v params !! k' = params !! k'.
Proof. intros Hne. unfold set_if. destruct c; [by apply lookup_insert_ne|done]. Qed.

End SetIf.

(** Looks a key up through a chain of assignments and conditional
    assignments to literal keys. *)
Ltac lookup_chain :=
  repeat first
    [ rewrite lookup_set_if_eq
    | rewrite lookup_set_if_ne by done
    | rewrite lookup_insert_eq
    | rewrite lookup_insert_ne by done
    | rewrite lookup_empty ].

(** ** Keyword arguments and parameter names *)

Lemma kwargs_value_parameter names (kwargs : dict) k :
  free_of names kwargs -> k ∈ names -> kwargs_value kwargs k = None.
Proof.
  unfold free_of, kwargs_value, dict_keys. intros Hfree Hk.
  apply dict_lookup_not_key. unfold dict_keys. rewrite map_rev.
  intros Hin. rewrite list_elem_of_In, <- in_rev, <- list_elem_of_In in Hin.
  rewrite list.Forall_forall in Hfree. exact (Hfree k Hin Hk).
Qed.

(** ** [export_map] *)

Section ExportMap.
Import MapExport.
Variable server : nat -> pyval.
Variables (self : layer) (a : args).

Local Abbreviation url := (Mapping._url self +:+ "/export").

(** X14. [export_map] makes exactly one request, a POST to
    [<url>/export], and returns its answer when the format is ['json'],
    ['image'] or ['kmz']. For any other format it makes no request at all:
    it prints ['Unsupported output format'] and returns [None]. *)
Theorem export_map_posts_once_or_not_at_all w :
  let run := export_map server self a w in
  if supported (format_of a) then
    exists kw,
      run = (Returned (server (answered w)),
             World (S (answered w))
                   (trace w ++ [EPost (PathVal (VStr url))
                                      (export_map_params a) kw])) /\
      dict_lookup kw "token" = Some (_token self)
  else
    run = (Returned VNone,
           World (answered w)
                 (trace w ++ [EPrint (VStr "Unsupported output format")])).
Proof.
  unfold supported, export_map. cbv zeta.
  destruct (eq_str (format_of a) "json"); simpl; [by eexists|].
  destruct (eq_str (format_of a) "image"); simpl.
  { destruct (_ && _); by eexists. }
  destruct (eq_str (format_of a) "kmz"); simpl; [by eexists|done].
Qed.

(** X15. Two arguments of [export_map] are dropped without a word. The
    image spatial reference is sent, wrapped as [{'wkid': image_sr}], only
    when it is an [int] (a [bool] counts): a dict, a string or any other
    value is left out. The bounding-box spatial reference is sent only
    when it is true, so a value of 0 is left out. A keyword argument of
    the same name is sent in either case. *)
Theorem export_map_drops_spatial_references :
  let image_sr := default VNone (image_sr a) in
  let bbox_sr := default VNone (bbox_sr a) in
  export_map_params a !! "imageSR"%string
  = match kwargs_value (kwargs a) "imageSR" with
    | Some v => Some v
    | None =>
        if is_int image_sr then Some (VDict [("wkid"%string, image_sr)])
        else None
    end /\
  export_map_params a !! "bboxSR"%string
  = match kwargs_value (kwargs a) "bboxSR" with
    | Some v => Some v
    | None => if truthy bbox_sr then Some bbox_sr else None
    end.
Proof.
  cbv zeta. unfold export_map_params. cbv zeta.
  rewrite !lookup_update_kwargs.
  split.
  - destruct (kwargs_value (kwargs a) "imageSR"); [done|]. lookup_chain.
    by destruct (default VNone (image_sr a)).
  - destruct (kwargs_value (kwargs a) "bboxSR"); [done|]. by lookup_chain.
Qed.

(** X16. A keyword argument cannot carry the name of a parameter, so
    the format [export_map] sends is always the one that decides how it
    posts: the parameter ['f'] is the argument [f]. For the same reason
    the bounding box is sent as given, and [dpi], [size] and [transparent]
    are sent with their defaults 200, ['600,550'] and [False] unless the
    caller passes [None] for them. The image format is different: it is
    sent as ['format'], which is no parameter's name, so a keyword argument
    [format] replaces the argument [image_format]. *)
Theorem export_map_sends_format_and_defaults :
  let unless_none (v : pyval) := if is_none v then None else Some v in
  free_of parameters (kwargs a) ->
  export_map_params a !! "f"%string = Some (format_of a) /\
  export_map_params a !! "bbox"%string = Some (bbox a) /\
  export_map_params a !! "dpi"%string
  = unless_none (default (VInt 200) (dpi a)) /\
  export_map_params a !! "size"%string
  = unless_none (default (VStr "600,550") (size a)) /\
  export_map_params a !! "transparent"%string
  = unless_none (default (VBool false) (transparent a)) /\
  export_map_params a !! "format"%string
  = match kwargs_value (kwargs a) "format" with
    | Some x => Some x
    | None => unless_none (default (VStr "png") (image_format a))
    end.
Proof.
  cbv zeta. intros Hfree.
  unfold export_map_params. cbv zeta.
  rewrite !lookup_update_kwargs.
  rewrite !(kwargs_value_parameter parameters) by (done || set_solver).
  repeat split; lookup_chain; try done;
    repeat match goal with
    | |- context [kwargs_value ?kw ?k] => destruct (kwargs_value kw k)
    | |- context [is_none ?v] => destruct (is_none v)
    end; done.
Qed.

End ExportMap.

(** ** [find] *)

Section Find.
Import MapFind.
Variable server : nat -> pyval.
Variables (self : layer) (a : args).

(** X17. What [find] sends, in one POST to [<url>/find]. The search
    text and ['f'] are always sent, [contains] too. The five flags
    [returnGeometry], [returnZ], [returnM], [returnUnformattedValues] and
    [returnFieldName] are sent unless they are [None], so [False] is sent.
    Every other argument, [layers] included although it is required, is
    sent only when it is true: [None], [False], 0, [''], [[]] and [{}] are
    left out. The keyword arguments are copied last and replace a
    parameter of the request of the same name, ['f'] included; as a
    keyword argument cannot carry the name of a parameter of the method,
    nothing replaces [contains], [layers] or [sr]. *)
Theorem find_sends_true_arguments_only w :
  let unless_none (v : pyval) := if is_none v then None else Some v in
  let if_true (v : pyval) := if truthy v then Some v else None in
  let sends (own : pyval -> option pyval) (kv : string * pyval) :=
    find_params a !! kv.1
    = match kwargs_value (kwargs a) kv.1 with
      | Some x => Some x
      | None => own kv.2
      end in
  free_of parameters (kwargs a) ->
  find_params a !! "contains"%string
  = Some (default (VBool true) (contains a)) /\
  find_params a !! "layers"%string = if_true (layers a) /\
  find_params a !! "sr"%string = if_true (default VNone (sr a)) /\
  Forall (sends Some)
    [("f"%string, VStr "json"); ("searchText"%string, search_text a)] /\
  Forall (sends unless_none)
    [("returnGeometry"%string, default (VBool true) (return_geometry a));
     ("returnZ"%string, default (VBool false) (return_z a));
     ("returnM"%string, default (VBool false) (return_m a));
     ("returnUnformattedValues"%string,
      default (VBool false) (return_unformatted a));
     ("returnFieldName"%string,
      default (VBool false) (return_field_name a))] /\
  Forall (sends if_true)
    [("searchFields"%string, default VNone (search_fields a));
     ("layerDefs"%string, default VNone (layer_defs a));
     ("maxAllowableOffset"%string, default VNone (max_offset a));
     ("geometryPrecision"%string, default VNone (precision a));
     ("dynamicLayers"%string, default VNone (dynamic_layers a));
     ("gdbVersion"%string, default VNone (gdb_version a));
     ("datumTransformations"%string, default VNone (transformations a));
     ("mapRangeValues"%string, default VNone (map_range_values a));
     ("layerRangeValues"%string, default VNone (layer_range_values a));
     ("layerParameterValues"%string, default VNone (layer_parameters a))] /\
  find server self a w
  = (Returned (server (answered w)),
     World (S (answered w))
           (trace w ++ [EPost (PathVal (VStr (Mapping._url self +:+ "/find")))
                              (find_params a) (token_kw self)])).
Proof.
  cbv zeta. intros Hfree.
  assert (Hpar : forall k, k ∈ parameters ->
                           kwargs_value (kwargs a) k = None).
  { intros k. by apply kwargs_value_parameter. }
  unfold find_params, find_own_params. cbv zeta.
  split; [|split; [|split; [|split; [|split; [|split; [|done]]]]]];
    repeat apply Forall_cons_2; try apply Forall_nil_2;
    cbn [fst snd]; rewrite lookup_update_kwargs;
    try (rewrite Hpar by set_solver);
    repeat match goal with
    | |- context [kwargs_value ?kw ?k] => destruct (kwargs_value kw k)
    end; try done; lookup_chain; try done;
    match goal with
    | |- context [is_none ?v] => by destruct (is_none v)
    end.
Qed.

End Find.

(** ** [identify] *)

Section Identify.
Import MapIdentify.
Variable server : nat -> pyval.
Variables (self : layer) (a : args).

Lemma prefix_geometry_type_str (s : string) :
  exists s',
    prefix_geometry_type (VStr s) = Ok (VStr s') /\
    mentions s' "esriGeometry" = true /\
    s' = (if mentions s "esriGeometry" then s else "esriGeometry" +:+ s).
Proof.
  unfold prefix_geometry_type, mentions.
  destruct (String.index 0 "esriGeometry" s) as [i|] eqn:Hi.
  - exists s. rewrite Hi. by rewrite bool_decide_eq_true_2 by by eexists.
  - exists ("esriGeometry" +:+ s). split; [done|]. split.
    + apply bool_decide_eq_true_2. exists 0%nat.
      change ("esriGeometry" +:+ s)
        with (String.append "esriGeometry" s).
      simpl. by destruct s.
    + rewrite bool_decide_eq_false_2; [done|]. by intros [? ?].
Qed.

(** X18. The geometry type [identify] sends always mentions
    ['esriGeometry']: a string that does not contain that text gets it as
    a prefix (the default ['Point'] goes out as ['esriGeometryPoint']), one
    that contains it anywhere is sent as it is. The request is one POST to
    [<url>/identify]. A geometry type that is not a string makes the call
    raise before any request. *)
Theorem identify_prefixes_geometry_type w :
  let given := default (VStr "Point") (geometry_type a) in
  (forall s, given = VStr s ->
     exists s',
       identify server self a w
       = (Returned (server (answered w)),
          World (S (answered w))
                (trace w
                 ++ [EPost (PathVal (VStr (Mapping._url self +:+ "/identify")))
                           (identify_params a (VStr s')) (token_kw self)])) /\
       identify_params a (VStr s') !! "geometryType"%string = Some (VStr s') /\
       mentions s' "esriGeometry" = true /\
       s' = (if mentions s "esriGeometry" then s else "esriGeometry" +:+ s)) /\
  ((forall s, given <> VStr s) ->
   exists e, identify server self a w = (Raised e, w)).
Proof.
  cbv zeta. split.
  - intros s Hs. destruct (prefix_geometry_type_str s) as (s' & Hp & Hm & Hs').
    exists s'. unfold identify, bind. rewrite Hs, Hp. simpl.
    split; [done|]. split; [|done].
    unfold identify_params. cbv zeta.
    repeat match goal with
    | |- context [or_pop ?v ?k ?d ?kw] => destruct (or_pop v k d kw)
    end.
    by lookup_chain.
  - intros Hnot. unfold identify, bind.
    destruct (default (VStr "Point") (geometry_type a)) as [| | |s| | |attrs];
      simpl; eauto.
    + by destruct (Hnot s).
    + destruct (dict_lookup attrs "find"); eauto.
Qed.

Lemma dict_lookup_remove_ne (d : dict) k k' :
  k <> k' -> dict_lookup (dict_remove k d) k' = dict_lookup d k'.
Proof.
  intros Hne. unfold dict_remove.
  induction d as [|[k0 v] d IH]; [done|].
  rewrite filter_cons. cbn [fst dict_lookup].
  destruct (String.eqb_spec k0 k) as [->|Hk0]; simpl.
  - destruct (String.eqb_spec k k'); [done|exact IH].
  - by rewrite IH.
Qed.

Lemma or_pop_pair v key dflt (kw : dict) :
  or_pop v key dflt kw
  = (if is_none v then default dflt (dict_lookup kw key) else v,
     if is_none v then dict_remove key kw else kw).
Proof. unfold or_pop, dict_pop. by destruct (is_none v). Qed.

Lemma dict_lookup_maybe_remove (c : bool) (d : dict) k k' :
  k <> k' ->
  dict_lookup (if c then dict_remove k d else d) k' = dict_lookup d k'.
Proof. intros Hne. destruct c; [by apply dict_lookup_remove_ne|done]. Qed.

(** X19. How [identify] treats keyword arguments. None of them is passed
    on as such: the request holds no parameter outside the fixed names of
    the method. The time it sends is [time_value] or, when that is [None],
    the keyword argument ['layerTimeOptions'] (a keyword argument ['time']
    is not looked at); [time_options] alone decides the parameter
    ['layerTimeOptions']. The tolerance is always a parameter, [None]
    included. *)
Theorem identify_keyword_arguments (geometry_type : pyval) :
  let params := identify_params a geometry_type in
  let time := fallback (kwargs a) (default VNone (time_value a))
                "layerTimeOptions" VNone in
  let options := default VNone (time_options a) in
  (forall k, k ∉ identify_keys -> params !! k = None) /\
  params !! "time"%string = (if truthy time then Some time else None) /\
  params !! "layerTimeOptions"%string
  = (if truthy options then Some options else None) /\
  params !! "tolerance"%string = Some (default VNone (tolerance a)).
Proof.
  cbv zeta. unfold identify_params, fallback. cbv zeta.
  rewrite !or_pop_pair. cbv beta iota.
  split; [|split; [|split]].
  - intros k Hk. unfold identify_keys in Hk.
    repeat (apply not_elem_of_cons in Hk as [? Hk]).
    repeat first
      [ rewrite lookup_set_if_ne by done
      | rewrite lookup_insert_ne by done
      | rewrite lookup_empty ].
    done.
  - lookup_chain. by rewrite !dict_lookup_maybe_remove by done.
  - by lookup_chain.
  - lookup_chain. by destruct (truthy _).
Qed.

Lemma dict_lookup_parameter names (kwargs : dict) k :
  free_of names kwargs -> k ∈ names -> dict_lookup kwargs k = None.
Proof.
  unfold free_of. intros Hfree Hk. apply dict_lookup_not_key. intros Hin.
  rewrite list.Forall_forall in Hfree. exact (Hfree k Hin Hk).
Qed.

(** X22. Of the ten arguments of [identify] that fall back on a keyword
    argument when they are [None], one never finds any: [sr] looks for a
    keyword argument ['sr'], the name of the parameter itself, which
    [**kwargs] cannot hold. So the spatial reference sent is the argument
    [sr], and only when it is true. The layer definitions, which look for
    ['layerDefs'], do fall back on it. *)
Theorem identify_sr_fallback_finds_nothing (geometry_type : pyval) :
  let params := identify_params a geometry_type in
  let if_true (v : pyval) := if truthy v then Some v else None in
  free_of parameters (kwargs a) ->
  params !! "sr"%string = if_true (default VNone (sr a)) /\
  params !! "layerDefs"%string
  = if_true (fallback (kwargs a) (default VNone (layer_defs a))
               "layerDefs" VNone).
Proof.
  cbv zeta. intros Hfree. unfold identify_params, fallback. cbv zeta.
  rewrite !or_pop_pair. cbv beta iota. split.
  - lookup_chain.
    rewrite (dict_lookup_parameter parameters) by (done || set_solver).
    by destruct (default VNone (sr a)).
  - lookup_chain. by rewrite !dict_lookup_maybe_remove by done.
Qed.

End Identify.

(** ** [update_tiles] and [delete_tiles] *)

Section Manager.
Import TileManager.
Variable server : nat -> pyval.
Variable self : manager.

Lemma update_tiles_params_lookup (levels extent : pyval) k :
  update_tiles_params levels extent !! k
  = if bool_decide (k = "extent"%string)
    then (if truthy extent then Some extent else None)
    else if bool_decide (k = "levels"%string)
    then (if truthy levels then Some levels else None)
    else if bool_decide (k = "f"%string) then Some (VStr "json")
    else None.
Proof.
  unfold update_tiles_params. cbv zeta.
  repeat case_bool_decide; subst; lookup_chain; try done.
  all: by repeat (rewrite lookup_set_if_ne by done
                  || rewrite lookup_insert_ne by done
                  || rewrite lookup_empty).
Qed.

(** X20. [update_tiles] touches the connection only on ArcGIS Online:
    elsewhere it returns [None] and leaves the trace as it was. On ArcGIS
    Online it is one POST to [<url>/updateTiles] without a token, whose
    parameters are ['f'] and, each only when it is true, ['levels'] and
    ['extent']; nothing else is sent. *)
Theorem update_tiles_posts_on_arcgis_online_only (levels extent : option pyval)
    w :
  let l := default VNone levels in
  let e := default VNone extent in
  update_tiles server self levels extent w
  = (if truthy (is_arcgisonline self)
     then (Returned (server (answered w)),
           World (S (answered w))
                 (trace w
                  ++ [EPost (PathVal (VStr (_url self +:+ "/updateTiles")))
                            (update_tiles_params l e) []]))
     else (Returned VNone, w)) /\
  update_tiles_params l e !! "f"%string = Some (VStr "json") /\
  update_tiles_params l e !! "levels"%string
  = (if truthy l then Some l else None) /\
  update_tiles_params l e !! "extent"%string
  = (if truthy e then Some e else None) /\
  (forall k, k ∉ ["f"; "levels"; "extent"]%string ->
             update_tiles_params l e !! k = None).
Proof.
  cbv zeta. split; [|split; [|split; [|split]]].
  - unfold update_tiles. cbv zeta. by destruct (truthy (is_arcgisonline self)).
  - by rewrite update_tiles_params_lookup.
  - by rewrite update_tiles_params_lookup.
  - by rewrite update_tiles_params_lookup.
  - intros k Hk. repeat (apply not_elem_of_cons in Hk as [? Hk]).
    rewrite update_tiles_params_lookup.
    by rewrite !bool_decide_eq_false_2 by done.
Qed.

(** X21. [delete_tiles] does not ask whether the portal is ArcGIS Online:
    it always posts once to [<url>/deleteTiles], without a token. Its
    parameters are those of [update_tiles] for the same arguments with
    ['levels'] stored whatever its value, so a [None] or empty [levels] is
    sent; the two agree exactly when [levels] is true. *)
Theorem delete_tiles_always_sends_levels (levels : pyval)
    (extent : option pyval) w :
  let e := default VNone extent in
  delete_tiles server self levels extent w
  = (Returned (server (answered w)),
     World (S (answered w))
           (trace w
            ++ [EPost (PathVal (VStr (_url self +:+ "/deleteTiles")))
                      (delete_tiles_params levels e) []])) /\
  delete_tiles_params levels e
  = <["levels"%string := levels]> (update_tiles_params levels e) /\
  delete_tiles_params levels e !! "levels"%string = Some levels /\
  (delete_tiles_params levels e = update_tiles_params levels e
   <-> truthy levels = true).
Proof.
  cbv zeta.
  assert (Hins : delete_tiles_params levels (default VNone extent)
                 = <["levels"%string := levels]>
                     (update_tiles_params levels (default VNone extent))).
  { unfold delete_tiles_params, update_tiles_params, set_if. cbv zeta.
    destruct (truthy levels), (truthy (default VNone extent));
      apply map_eq; intros k;
      (destruct (decide (k = "levels"%string)) as [->|];
       [|destruct (decide (k = "extent"%string)) as [->|];
         [|destruct (decide (k = "f"%string)) as [->|]]]);
      by repeat first
           [ rewrite lookup_insert_eq
           | rewrite lookup_insert_ne by done
           | rewrite lookup_empty ]. }
  split; [done|]. split; [exact Hins|]. split.
  - rewrite Hins. by rewrite lookup_insert_eq.
  - split.
    + intros Heq.
      assert (Hl : update_tiles_params levels (default VNone extent)
                   !! "levels"%string = Some levels).
      { rewrite <- Heq, Hins. by rewrite lookup_insert_eq. }
      rewrite update_tiles_params_lookup in Hl. simpl in Hl.
      by destruct (truthy levels).
    + intros Ht. rewrite Hins. apply insert_id.
      rewrite update_tiles_params_lookup. simpl. by rewrite Ht.
Qed.

End Manager.

(** ** Sample calls *)

Section SampleRequests.
Import Examples SampleCalls.

Lemma export_map_sends_format_and_defaults_witness :
  MapExport.export_map_params export_as_image !! "f"%string
  = Some (VStr "image") /\
  MapExport.export_map_params export_as_image !! "format"%string
  = Some (VStr "jpg").
Proof.
  destruct (export_map_sends_format_and_defaults export_as_image)
    as (Hf & _ & _ & _ & _ & Hformat).
  - apply (bool_decide_unpack _). vm_compute. exact I.
  - split; [exact Hf|exact Hformat].
Defined.

Lemma find_sends_true_arguments_only_witness :
  MapFind.find_params find_main_street !! "contains"%string
  = Some (VBool true) /\
  MapFind.find_params find_main_street !! "layers"%string = None.
Proof.
  destruct (find_sends_true_arguments_only (fun _ => VNone) world_layer
              find_main_street fresh)
    as (Hcontains & Hlayers & _).
  - apply (bool_decide_unpack _). vm_compute. exact I.
  - split; [exact Hcontains|exact Hlayers].
Defined.

Lemma identify_sr_fallback_finds_nothing_witness :
  MapIdentify.identify_params identify_boston (VStr "esriGeometryPoint")
  !! "sr"%string = None /\
  MapIdentify.identify_params identify_boston (VStr "esriGeometryPoint")
  !! "layerDefs"%string = Some (VStr "0:POP>100").
Proof.
  destruct (identify_sr_fallback_finds_nothing identify_boston
              (VStr "esriGeometryPoint"))
    as (Hsr & Hdefs).
  - apply (bool_decide_unpack _). vm_compute. exact I.
  - split; [exact Hsr|exact Hdefs].
Defined.

End SampleRequests.
